(** * ppt_generator: a shallow embedding of the slide-deck pipeline

    The Python sources embedded here are [ppt_generator.py] (skeleton
    synthesis, content enhancement, layout arithmetic, chart slides, template
    loading), [chart_generator.py] (chart type decision and the two rendering
    backends) and [csv_processor.py] (the query executor).

    Python strings are sequences of Unicode code points, and the embedding
    keeps them as such ([PyStr.str]).  The collaborators the programme calls
    but does not define (the LLM completion [ai], [json.loads], [eval], the
    drawing backends, the file system, [str.lower] outside ASCII) are Section
    variables: every theorem holds for whatever they answer. *)

From Stdlib Require Import String Ascii ZArith NArith Bool Lia List.
From Stdlib Require Import Floats.
From Stdlib Require Import Sorting.Sorted Sorting.Permutation.
Import ListNotations.

Set Implicit Arguments.
Set Warnings "-register-all".

(* ================================================================== *)
(** * Python strings *)
(* ================================================================== *)

Module PyStr.

Definition codepoint := N.
Definition str := list codepoint.

(** An ASCII literal of the source as a Python string. *)
Definition lit (s : string) : str := map N_of_ascii (list_ascii_of_string s).

Definition cp_eqb : codepoint -> codepoint -> bool := N.eqb.

Fixpoint eqb (a b : str) : bool :=
  match a, b with
  | [], [] => true
  | x :: a', y :: b' => cp_eqb x y && eqb a' b'
  | _, _ => false
  end.

Definition in_ranges (rs : list (N * N)) (c : codepoint) : bool :=
  existsb (fun r => (fst r <=? c)%N && (c <=? snd r)%N) rs.

(** [str.isspace] on one code point, which is also what [\s] matches in a
    [str] pattern (Unicode 14 tables of CPython 3.11). *)
Definition whitespace_ranges : list (N * N) :=
  [(9, 13); (28, 32); (133, 133); (160, 160); (5760, 5760); (8192, 8202);
   (8232, 8233); (8239, 8239); (8287, 8287); (12288, 12288)]%N.

Definition isspace : codepoint -> bool := in_ranges whitespace_ranges.

(** What [\d] matches in a [str] pattern: general category Nd. *)
Definition decimal_ranges : list (N * N) :=
  [(48, 57); (1632, 1641); (1776, 1785); (1984, 1993); (2406, 2415);
   (2534, 2543); (2662, 2671); (2790, 2799); (2918, 2927); (3046, 3055);
   (3174, 3183); (3302, 3311); (3430, 3439); (3558, 3567); (3664, 3673);
   (3792, 3801); (3872, 3881); (4160, 4169); (4240, 4249); (6112, 6121);
   (6160, 6169); (6470, 6479); (6608, 6617); (6784, 6793); (6800, 6809);
   (6992, 7001); (7088, 7097); (7232, 7241); (7248, 7257); (42528, 42537);
   (43216, 43225); (43264, 43273); (43472, 43481); (43504, 43513);
   (43600, 43609); (44016, 44025); (65296, 65305); (66720, 66729);
   (68912, 68921); (69734, 69743); (69872, 69881); (69942, 69951);
   (70096, 70105); (70384, 70393); (70736, 70745); (70864, 70873);
   (71248, 71257); (71360, 71369); (71472, 71481); (71904, 71913);
   (72016, 72025); (72784, 72793); (73040, 73049); (73120, 73129);
   (92768, 92777); (92864, 92873); (93008, 93017); (120782, 120831);
   (123200, 123209); (123632, 123641); (125264, 125273);
   (130032, 130041)]%N.

Definition isdecimal : codepoint -> bool := in_ranges decimal_ranges.

Fixpoint dropWhile (p : codepoint -> bool) (s : str) : str :=
  match s with
  | [] => []
  | c :: s' => if p c then dropWhile p s' else s
  end.

Definition lstrip (s : str) : str := dropWhile isspace s.
Definition rstrip (s : str) : str := rev (dropWhile isspace (rev s)).

(** [s.strip()] *)
Definition strip (s : str) : str := rstrip (lstrip s).

(** [s.startswith(p)] *)
Fixpoint startswith (p s : str) : bool :=
  match p, s with
  | [], _ => true
  | _ :: _, [] => false
  | x :: p', y :: s' => cp_eqb x y && startswith p' s'
  end.

Fixpoint find_from (sub s : str) (i : Z) : Z :=
  if startswith sub s then i
  else match s with
       | [] => (-1)%Z
       | _ :: s' => find_from sub s' (i + 1)%Z
       end.

(** [s.find(sub)]: the lowest index of an occurrence, or -1. *)
Definition find (sub s : str) : Z := find_from sub s 0%Z.

Fixpoint rfind_from (sub s : str) (i : Z) : Z :=
  match s with
  | [] => if startswith sub [] then i else (-1)%Z
  | _ :: s' =>
      let later := rfind_from sub s' (i + 1)%Z in
      if (0 <=? later)%Z then later
      else if startswith sub s then i else (-1)%Z
  end.

(** [s.rfind(sub)]: the highest index of an occurrence, or -1. *)
Definition rfind (sub s : str) : Z := rfind_from sub s 0%Z.

(** [sub in s] *)
Definition contains (sub s : str) : bool := negb (find sub s =? -1)%Z.

(** [s.split(sep)] for a non-empty separator: occurrences are taken from
    the left and do not overlap.  [skip] counts the characters of a
    separator still to pass over, [cur] is the piece being read, reversed. *)
Fixpoint split_aux (sep : str) (skip : nat) (cur s : str) : list str :=
  match s with
  | [] => [rev cur]
  | c :: s' =>
      match skip with
      | S k => split_aux sep k cur s'
      | O =>
          if startswith sep s
          then rev cur :: split_aux sep (length sep - 1) [] s'
          else split_aux sep 0 (c :: cur) s'
      end
  end.

Definition split (sep s : str) : list str := split_aux sep 0 [] s.

(** Slice bounds as Python clamps them: a negative index counts from the
    end, and both ends are brought into [0, len]. *)
Definition clamp (len i : Z) : Z :=
  if (i <? 0)%Z then Z.max 0 (i + len) else Z.min i len.

(** [s[i:j]] *)
Definition slice {A : Type} (s : list A) (i j : Z) : list A :=
  let len := Z.of_nat (length s) in
  let lo := clamp len i in
  let hi := clamp len j in
  skipn (Z.to_nat lo) (firstn (Z.to_nat hi) s).

(** [s[i:]] *)
Definition slice_from {A : Type} (s : list A) (i : Z) : list A :=
  slice s i (Z.of_nat (length s)).

(** [s[:j]] *)
Definition slice_to {A : Type} (s : list A) (j : Z) : list A := slice s 0 j.

(** [str.lower] restricted to ASCII letters; code points outside ASCII are
    the business of the Unicode case tables, which callers take as a
    parameter. *)
Definition ascii_lower_cp (c : codepoint) : codepoint :=
  if (65 <=? c)%N && (c <=? 90)%N then (c + 32)%N else c.

Definition ascii_lower (s : str) : str := map ascii_lower_cp s.

End PyStr.

(* ================================================================== *)
(** * Exceptions and results *)
(* ================================================================== *)

Module Py.

(** The exception classes the sources can meet.  [SystemExit] and
    [KeyboardInterrupt] derive from [BaseException] only: an
    [except Exception] clause lets them through, a bare [except:] does not. *)
Inductive exn : Type :=
| KeyError | TypeError | IndexError | ValueError | SyntaxError | NameError
| AttributeError | ZeroDivisionError | OverflowError | OSError
| CollaboratorError
| SystemExit | KeyboardInterrupt.

Definition is_Exception (e : exn) : bool :=
  match e with
  | SystemExit | KeyboardInterrupt => false
  | _ => true
  end.

(** What a call does: it returns a value or raises. *)
Inductive result (A : Type) : Type :=
| Ok (a : A)
| Raise (e : exn).

Arguments Ok {A} a.
Arguments Raise {A} e.

Definition bind {A B : Type} (m : result A) (k : A -> result B) : result B :=
  match m with
  | Ok a => k a
  | Raise e => Raise e
  end.

Definition returned {A : Type} (m : result A) : bool :=
  match m with Ok _ => true | Raise _ => false end.

End Py.

Declare Scope py_scope.
Delimit Scope py_scope with py.
Notation "x <- m ;; k" := (Py.bind m (fun x => k))
  (at level 61, m at next level, right associativity) : py_scope.
Open Scope py_scope.

(* ================================================================== *)
(** * Python values, as [json.loads] builds them *)
(* ================================================================== *)

Module PyVal.
Import PyStr.

(** A [float] keeps the text it was read from: no source function here does
    arithmetic on a parsed number. *)
Inductive value : Type :=
| VNone
| VBool (b : bool)
| VInt (z : Z)
| VFloat (lexeme : str)
| VStr (s : str)
| VList (l : list value)
| VDict (d : list (str * value)).

(** A [dict] keeps its keys in insertion order; assigning to a key that is
    present replaces the value where it stands. *)
Definition dict := list (str * value).

Fixpoint dict_get (d : dict) (k : str) : option value :=
  match d with
  | [] => None
  | (k', v) :: d' => if PyStr.eqb k' k then Some v else dict_get d' k
  end.

Fixpoint dict_set (d : dict) (k : str) (v : value) : dict :=
  match d with
  | [] => [(k, v)]
  | (k', v') :: d' =>
      if PyStr.eqb k' k then (k', v) :: d' else (k', v') :: dict_set d' k v
  end.

(** [d[k]] *)
Definition getitem (d : dict) (k : str) : Py.result value :=
  match dict_get d k with
  | Some v => Py.Ok v
  | None => Py.Raise Py.KeyError
  end.

(** [d.get(k, default)] *)
Definition get_default (d : dict) (k : str) (default : value) : value :=
  match dict_get d k with
  | Some v => v
  | None => default
  end.

(** [len(v)] *)
Definition py_len (v : value) : Py.result Z :=
  match v with
  | VStr s => Py.Ok (Z.of_nat (length s))
  | VList l => Py.Ok (Z.of_nat (length l))
  | VDict d => Py.Ok (Z.of_nat (length d))
  | _ => Py.Raise Py.TypeError
  end.

(** [v[:j]]: lists and strings slice; a [dict] refuses a slice as a key
    (unhashable up to CPython 3.11), the scalars are not subscriptable. *)
Definition py_slice_to (v : value) (j : Z) : Py.result value :=
  match v with
  | VStr s => Py.Ok (VStr (slice_to s j))
  | VList l => Py.Ok (VList (slice_to l j))
  | _ => Py.Raise Py.TypeError
  end.

End PyVal.

(* ================================================================== *)
(** * [json.loads] *)
(* ================================================================== *)

(** The decoder of the [json] module on a [str]: the JSON grammar with the
    three extra constants CPython accepts.  The interpreter's limits
    (recursion depth, digits of an integer) are not part of it.  The
    programme reaches the decoder through a Section variable; this
    definition is the instance the examples run. *)
Module Json.
Import PyStr PyVal.

Definition is_ws (c : codepoint) : bool :=
  (c =? 32)%N || (c =? 9)%N || (c =? 10)%N || (c =? 13)%N.

Definition skip_ws (s : str) : str := dropWhile is_ws s.

Definition is_digit (c : codepoint) : bool := (48 <=? c)%N && (c <=? 57)%N.

Definition hex_val (c : codepoint) : option N :=
  if is_digit c then Some (c - 48)%N
  else if (97 <=? c)%N && (c <=? 102)%N then Some (c - 87)%N
  else if (65 <=? c)%N && (c <=? 70)%N then Some (c - 55)%N
  else None.

Definition hex4 (a b c d : codepoint) : option N :=
  match hex_val a, hex_val b, hex_val c, hex_val d with
  | Some x, Some y, Some z, Some w => Some (((x * 16 + y) * 16 + z) * 16 + w)%N
  | _, _, _, _ => None
  end.

Definition is_high_surrogate (u : N) : bool := (55296 <=? u)%N && (u <=? 56319)%N.
Definition is_low_surrogate (u : N) : bool := (56320 <=? u)%N && (u <=? 57343)%N.

Definition join_surrogates (hi lo : N) : N :=
  (65536 + (hi - 55296) * 1024 + (lo - 56320))%N.

(** The character a one-letter escape stands for. *)
Definition simple_escape (e : codepoint) : option codepoint :=
  if (e =? 34)%N then Some 34%N          (* quote *)
  else if (e =? 92)%N then Some 92%N     (* backslash *)
  else if (e =? 47)%N then Some 47%N     (* slash *)
  else if (e =? 98)%N then Some 8%N      (* backspace *)
  else if (e =? 102)%N then Some 12%N    (* form feed *)
  else if (e =? 110)%N then Some 10%N    (* line feed *)
  else if (e =? 114)%N then Some 13%N    (* carriage return *)
  else if (e =? 116)%N then Some 9%N     (* tab *)
  else None.

(** The inside of a string literal, after its opening quote: the text and
    what follows the closing quote.  Control characters are refused
    (strict mode), an unfinished literal too. *)
Fixpoint string_body (s acc : str) : option (str * str) :=
  match s with
  | [] => None
  | c :: r =>
      if (c =? 34)%N then Some (rev acc, r)
      else if (c =? 92)%N then
        match r with
        | [] => None
        | e :: r1 =>
            if (e =? 117)%N then
              match r1 with
              | h1 :: h2 :: h3 :: h4 :: r2 =>
                  match hex4 h1 h2 h3 h4 with
                  | None => None
                  | Some u =>
                      if is_high_surrogate u then
                        match r2 with
                        | b :: u' :: g1 :: g2 :: g3 :: g4 :: r3 =>
                            if (b =? 92)%N && (u' =? 117)%N then
                              match hex4 g1 g2 g3 g4 with
                              | None => None
                              | Some u2 =>
                                  if is_low_surrogate u2
                                  then string_body r3 (join_surrogates u u2 :: acc)
                                  else string_body r2 (u :: acc)
                              end
                            else string_body r2 (u :: acc)
                        | _ => string_body r2 (u :: acc)
                        end
                      else string_body r2 (u :: acc)
                  end
              | _ => None
              end
            else
              match simple_escape e with
              | Some x => string_body r1 (x :: acc)
              | None => None
              end
        end
      else if (c <? 32)%N then None
      else string_body r (c :: acc)
  end.

Fixpoint take_digits (s : str) : str * str :=
  match s with
  | c :: r => if is_digit c then let (ds, r') := take_digits r in (c :: ds, r')
              else ([], s)
  | [] => ([], [])
  end.

Definition digits_value (ds : str) : Z :=
  fold_left (fun acc c => (acc * 10 + Z.of_N (c - 48))%Z) ds 0%Z.

(** The fraction [.digits] when one starts here. *)
Definition take_frac (s : str) : str * str :=
  match s with
  | c :: r =>
      if (c =? 46)%N then
        match take_digits r with
        | ([], _) => ([], s)
        | (ds, r') => (c :: ds, r')
        end
      else ([], s)
  | [] => ([], [])
  end.

(** The exponent [e], [E] with an optional sign and digits, when one starts
    here. *)
Definition take_exp (s : str) : str * str :=
  match s with
  | c :: r =>
      if (c =? 101)%N || (c =? 69)%N then
        let (sign, r1) :=
          match r with
          | g :: r' => if (g =? 43)%N || (g =? 45)%N then ([g], r') else ([], r)
          | [] => ([], r)
          end in
        match take_digits r1 with
        | ([], _) => ([], s)
        | (ds, r') => (c :: sign ++ ds, r')
        end
      else ([], s)
  | [] => ([], [])
  end.

(** A number: an optional minus, then 0 or a digit run that does not start
    with 0, then an optional fraction and exponent; an [int] when it has
    neither of the two. *)
Definition number (s : str) : option (value * str) :=
  let (neg, s1) :=
    match s with
    | c :: r => if (c =? 45)%N then (true, r) else (false, s)
    | [] => (false, s)
    end in
  match s1 with
  | [] => None
  | d :: r =>
      if is_digit d then
        let (int_part, r1) :=
          if (d =? 48)%N then ([d], r)
          else let (ds, r') := take_digits r in (d :: ds, r') in
        let (frac, r2) := take_frac r1 in
        let (exp, r3) := take_exp r2 in
        match frac, exp with
        | [], [] =>
            let z := digits_value int_part in
            Some (VInt (if neg then (- z)%Z else z), r3)
        | _, _ =>
            Some (VFloat ((if neg then [45%N] else []) ++ int_part ++ frac ++ exp), r3)
        end
      else None
  end.

(** [s] begins with the word [w]: what is left after it. *)
Definition word (w : string) (s : str) : option str :=
  if startswith (lit w) s then Some (skipn (length (lit w)) s) else None.

Definition constant (s : str) : option (value * str) :=
  match word "null" s with
  | Some r => Some (VNone, r)
  | None =>
  match word "true" s with
  | Some r => Some (VBool true, r)
  | None =>
  match word "false" s with
  | Some r => Some (VBool false, r)
  | None =>
  match word "NaN" s with
  | Some r => Some (VFloat (lit "NaN"), r)
  | None =>
  match word "Infinity" s with
  | Some r => Some (VFloat (lit "Infinity"), r)
  | None =>
  match word "-Infinity" s with
  | Some r => Some (VFloat (lit "-Infinity"), r)
  | None => number s
  end end end end end end.

(** One value starting at the head of [s] (no leading blanks), and the text
    after it.  Every nested value costs one unit of [fuel]. *)
Fixpoint scan_once (fuel : nat) (s : str) : option (value * str) :=
  match fuel with
  | O => None
  | S f =>
      match s with
      | [] => None
      | c :: r =>
          if (c =? 34)%N then
            match string_body r [] with
            | Some (x, r') => Some (VStr x, r')
            | None => None
            end
          else if (c =? 123)%N then
            match skip_ws r with
            | [] => None
            | c1 :: r2 =>
                if (c1 =? 125)%N then Some (VDict [], r2)
                else members f [] (c1 :: r2)
            end
          else if (c =? 91)%N then
            match skip_ws r with
            | [] => None
            | c1 :: r2 =>
                if (c1 =? 93)%N then Some (VList [], r2)
                else items f [] (c1 :: r2)
            end
          else constant s
      end
  end
with members (fuel : nat) (acc : dict) (s : str) : option (value * str) :=
  match fuel with
  | O => None
  | S f =>
      match s with
      | [] => None
      | q :: r =>
          if (q =? 34)%N then
            match string_body r [] with
            | None => None
            | Some (k, r1) =>
                match skip_ws r1 with
                | [] => None
                | colon :: r2 =>
                    if (colon =? 58)%N then
                      match scan_once f (skip_ws r2) with
                      | None => None
                      | Some (v, r3) =>
                          match skip_ws r3 with
                          | [] => None
                          | d :: r4 =>
                              if (d =? 125)%N
                              then Some (VDict (dict_set acc k v), r4)
                              else if (d =? 44)%N
                              then members f (dict_set acc k v) (skip_ws r4)
                              else None
                          end
                      end
                    else None
                end
            end
          else None
      end
  end
with items (fuel : nat) (acc : list value) (s : str) : option (value * str) :=
  match fuel with
  | O => None
  | S f =>
      match scan_once f s with
      | None => None
      | Some (v, r1) =>
          match skip_ws r1 with
          | [] => None
          | d :: r2 =>
              if (d =? 93)%N then Some (VList (acc ++ [v]), r2)
              else if (d =? 44)%N then items f (acc ++ [v]) (skip_ws r2)
              else None
          end
      end
  end.

(** [json.loads(s)]: one value, blanks allowed around it, nothing after.
    A failure is a [JSONDecodeError], which is a [ValueError]. *)
Definition loads (s : str) : Py.result value :=
  if startswith [65279%N] s then Py.Raise Py.ValueError
  else
    match scan_once (S (length s)) (skip_ws s) with
    | Some (v, r) =>
        match skip_ws r with
        | [] => Py.Ok v
        | _ :: _ => Py.Raise Py.ValueError
        end
    | None => Py.Raise Py.ValueError
    end.

(** A JSON text written with ['] where the text has a double quote. *)
Definition jlit (s : string) : str :=
  map (fun c => if (c =? 39)%N then 34%N else c) (lit s).

End Json.

(* ================================================================== *)
(** * Tables *)
(* ================================================================== *)

(** The part of a pandas [DataFrame] the programme looks at: named, typed
    columns and the rows in order.  Row labels (the index) play no part in
    what is drawn and are left out.  Numeric cells carry an integer: the
    code only compares them. *)
Module Pandas.
Import PyStr.

Inductive dtype : Type := Numeric | Object | Datetime.

Inductive cell : Type :=
| CNum (z : Z)
| CStr (s : str).

Record DataFrame : Type := mkDataFrame {
  columns : list (str * dtype);
  rows : list (list cell)
}.

(** [len(df)] *)
Definition len (df : DataFrame) : nat := length (rows df).

(** [df.head(n)] *)
Definition head (n : nat) (df : DataFrame) : DataFrame :=
  mkDataFrame (columns df) (firstn n (rows df)).

Fixpoint index_of (name : str) (cols : list (str * dtype)) : option nat :=
  match cols with
  | [] => None
  | (n, _) :: cols' =>
      if PyStr.eqb n name then Some O
      else match index_of name cols' with
           | Some i => Some (S i)
           | None => None
           end
  end.

(** The cell of a row under the column called [name]. *)
Definition cell_at (df : DataFrame) (name : str) (row : list cell) : cell :=
  match index_of name (columns df) with
  | Some i => nth i row (CStr [])
  | None => CStr []
  end.

Definition column_dtype (df : DataFrame) (name : str) : dtype :=
  match index_of name (columns df) with
  | Some i => snd (nth i (columns df) ([], Object))
  | None => Object
  end.

(** [pd.api.types.is_numeric_dtype(df[name])] *)
Definition is_numeric_dtype (df : DataFrame) (name : str) : bool :=
  match column_dtype df name with
  | Numeric => true
  | _ => false
  end.

Definition num_of (c : cell) : Z :=
  match c with
  | CNum z => z
  | CStr _ => 0%Z
  end.

(** The number a row is ranked by. *)
Definition key (df : DataFrame) (name : str) (row : list cell) : Z :=
  num_of (cell_at df name row).

(** Insertion below every row that ranks strictly higher: a row read
    earlier stays ahead of a later one of the same rank. *)
Fixpoint insert_desc (k : list cell -> Z) (r : list cell)
    (sorted : list (list cell)) : list (list cell) :=
  match sorted with
  | [] => [r]
  | r' :: rest =>
      if (k r' <=? k r)%Z then r :: sorted
      else r' :: insert_desc k r rest
  end.

Fixpoint sort_desc (k : list cell -> Z) (l : list (list cell))
    : list (list cell) :=
  match l with
  | [] => []
  | r :: l' => insert_desc k r (sort_desc k l')
  end.

(** [df.nlargest(n, name)]: the [n] rows with the largest values under
    [name], largest first, equal values in the order of the table. *)
Definition nlargest (n : nat) (name : str) (df : DataFrame) : DataFrame :=
  mkDataFrame (columns df) (firstn n (sort_desc (key df name) (rows df))).

Fixpoint set_nth {A : Type} (i : nat) (x : A) (l : list A) : list A :=
  match l, i with
  | [], _ => []
  | _ :: l', O => x :: l'
  | y :: l', S i' => y :: set_nth i' x l'
  end.

(** Each row rewritten by [place] with its position, counted from [i]. *)
Fixpoint number_rows (place : list cell -> Z -> list cell) (i : Z)
    (rs : list (list cell)) : list (list cell) :=
  match rs with
  | [] => []
  | r :: rs' => place r i :: number_rows place (i + 1) rs'
  end.

(** [df[name] = range(len(df))]: a column of that name is overwritten where
    it stands, a new one is added last. *)
Definition assign_range (name : str) (df : DataFrame) : DataFrame :=
  match index_of name (columns df) with
  | Some j =>
      mkDataFrame (set_nth j (name, Numeric) (columns df))
                  (number_rows (fun r i => set_nth j (CNum i) r) 0 (rows df))
  | None =>
      mkDataFrame (columns df ++ [(name, Numeric)])
                  (number_rows (fun r i => r ++ [CNum i]) 0 (rows df))
  end.

End Pandas.

(* ================================================================== *)
(** * The analysis result and the LLM *)
(* ================================================================== *)

Module Llm.
Import PyStr PyVal.

(** The dictionary [analyze_data] returns, with its four fixed keys. *)
Record analysis_result : Type := mkAnalysis {
  query : str;
  result : Pandas.DataFrame;
  summary : str;
  original_question : str
}.

(** A prompt is a fixed text with values interpolated; it is kept as the
    values, which determine the text. *)
Inductive prompt : Type :=
| SkeletonPrompt (question summary400 template_name : str)
| EnhancePrompt (title outline : value) (question summary300 : str)
    (slide_type : value) (n_points : Z)
| ChartTypePrompt (df : Pandas.DataFrame) (question : str).

(** [model.ai]: the completion, already stripped, or the client's error. *)
Definition completion := prompt -> Py.result str.

End Llm.

(* ================================================================== *)
(** * ppt_generator.py: skeleton synthesis and content enhancement *)
(* ================================================================== *)

Module PptGenerator.
Import PyStr PyVal Llm.

Definition fence : str := lit "```".

Definition slide_entry (no : Z) (title : str) (type : string)
    (content : list str) : value :=
  VDict [(lit "slide_no", VInt no);
         (lit "title", VStr title);
         (lit "type", VStr (lit type));
         (lit "content", VList (map VStr content))].

(** The dictionary of the [except] branch of [create_ppt_skeleton]. *)
Definition fallback_skeleton (ar : analysis_result) : value :=
  VDict [(lit "slides", VList [
    slide_entry 1 (lit "Executive Summary: " ++ slice_to (original_question ar) 35)
      "title"
      [lit "Key insights and findings from comprehensive data analysis"];
    slide_entry 2 (lit "Data Overview & Analysis Approach") "content"
      [lit "Dataset scope and key characteristics";
       lit "Analytical methodology and tools applied";
       lit "Data quality assessment and validation"];
    slide_entry 3 (lit "Primary Data Insights") "chart"
      [lit "Most significant patterns discovered in data";
       lit "Critical trends affecting business outcomes";
       lit "Key performance indicators and metrics"];
    slide_entry 4 (lit "Detailed Analysis Results") "chart"
      [lit "In-depth examination of key variables";
       lit "Correlation and causation relationships found";
       lit "Predictive insights and future implications"];
    slide_entry 5 (lit "Strategic Recommendations") "content"
      [lit "Primary business recommendations based on data";
       lit "Immediate action items for implementation";
       lit "Long-term strategic opportunities identified"]])].

(** The number and type of a slide entry, when it has both. *)
Definition slide_shape (v : value) : option (Z * str) :=
  match v with
  | VDict d =>
      match dict_get d (lit "slide_no"), dict_get d (lit "type") with
      | Some (VInt n), Some (VStr t) => Some (n, t)
      | _, _ => None
      end
  | _ => None
  end.

(** The entries of the ["slides"] array of a skeleton, when it has one. *)
Definition slides_of (skeleton : value) : option (list value) :=
  match skeleton with
  | VDict d =>
      match dict_get d (lit "slides") with
      | Some (VList l) => Some l
      | _ => None
      end
  | _ => None
  end.

(** The fixed template: 1=title, 2=content, 3=chart, 4=chart, 5=content. *)
Definition template : list (Z * str) :=
  [(1, lit "title"); (2, lit "content"); (3, lit "chart"); (4, lit "chart");
   (5, lit "content")]%Z.

Definition follows_template (skeleton : value) : Prop :=
  exists slides,
    slides_of skeleton = Some slides
    /\ length slides = 5
    /\ map slide_shape slides = map Some template.

(** Lines 351-359: the text between the first pair of fences when there is
    a fence, without a leading [json]; then the span from the first opening
    brace to the last closing one, when there is such a span. *)
Definition extract_json (response : str) : Py.result str :=
  fenced <-
    (if contains fence response then
       match split fence response with
       | _ :: part :: _ =>
           let part := strip part in
           Py.Ok (if startswith (lit "json") part
                  then strip (slice_from part 4) else part)
       | _ => Py.Raise Py.IndexError
       end
     else Py.Ok response) ;;
  let start := find (lit "{") fenced in
  let stop := (rfind (lit "}") fenced + 1)%Z in
  Py.Ok (if negb (start =? -1)%Z && (start <? stop)%Z
         then slice fenced start stop else fenced).

(** The bullet glyphs, digits, signs and blanks the pattern of line 406
    removes from the head of a line. *)
Definition bullet_class (c : codepoint) : bool :=
  existsb (N.eqb c) [8226; 45; 42; 9658; 9642; 9643; 9702; 8227; 43; 46]%N
  || isdecimal c || isspace c.

(** Lines 403-406: one line of the completion, cleaned. *)
Definition clean_line (line : str) : str :=
  strip (dropWhile bullet_class (strip line)).

(** Line 407: [line and len(line) > 10]. *)
Definition usable (line : str) : bool :=
  match line with
  | [] => false
  | _ :: _ => (10 <? length line)%nat
  end.

(** Lines 398-408: the cleaned lines of the completion that are kept. *)
Definition enhanced_points (completion_text : str) : list str :=
  filter usable (map clean_line (split [10%N] (strip completion_text))).

Section WithCollaborators.

Variable ai : completion.
Variable json_loads : str -> Py.result value.

Definition create_ppt_skeleton (ar : analysis_result) (template_name : str)
    : Py.result value :=
  text <- ai (SkeletonPrompt (original_question ar)
                (slice_to (summary ar) 400) template_name) ;;
  response <- extract_json (strip text) ;;
  match json_loads response with
  | Py.Ok skeleton => Py.Ok skeleton
  | Py.Raise _ => Py.Ok (fallback_skeleton ar)
  end.

Definition outline_of (slide : dict) : value :=
  get_default slide (lit "content") (VList []).

Definition enhance_prompt (slide : dict) (ar : analysis_result)
    : Py.result prompt :=
  title <- getitem slide (lit "title") ;;
  type <- getitem slide (lit "type") ;;
  n <- py_len (outline_of slide) ;;
  Py.Ok (EnhancePrompt title (outline_of slide) (original_question ar)
           (slice_to (summary ar) 300) type n).

(** The slide is a dictionary updated in place and returned; the value
    returned here is that dictionary after the update. *)
Definition enhance_slide_content (slide : dict) (ar : analysis_result)
    : Py.result dict :=
  p <- enhance_prompt slide ar ;;
  text <- ai p ;;
  content <-
    match enhanced_points text with
    | [] => py_slice_to (outline_of slide) 4
    | (_ :: _) as points => Py.Ok (VList (map VStr (slice_to points 4)))
    end ;;
  Py.Ok (dict_set slide (lit "content") content).

End WithCollaborators.

End PptGenerator.

(* ================================================================== *)
(** * csv_processor.py: the query executor *)
(* ================================================================== *)

Module CsvProcessor.
Import PyStr Pandas.

Fixpoint newline_offset (s : str) : option nat :=
  match s with
  | [] => None
  | c :: r => if (c =? 10)%N then Some O else option_map S (newline_offset r)
  end.

(** [re.sub(r'```.*?\n|```', '', query)]: at a fence, the fence and the
    rest of its line go when the line has an end, the fence alone otherwise.
    [skip] counts the characters of a match still to pass over. *)
Fixpoint strip_fences_aux (skip : nat) (s : str) : str :=
  match s with
  | [] => []
  | c :: r =>
      match skip with
      | S k => strip_fences_aux k r
      | O =>
          if startswith (lit "```") s then
            match newline_offset (skipn 2 r) with
            | Some n => strip_fences_aux (2 + n + 1) r
            | None => strip_fences_aux 2 r
            end
          else c :: strip_fences_aux 0 r
      end
  end.

Definition strip_fences (query : str) : str := strip_fences_aux 0 query.

(** What [eval] hands back, by the test the executor makes on it: a frame,
    something with a [to_frame] method (and what that method does), or
    anything else (and what [pd.DataFrame([result])] does with it). *)
Inductive evaluated : Type :=
| AFrame (d : DataFrame)
| WithToFrame (converted : Py.result DataFrame)
| Other (wrapped : Py.result DataFrame).

Definition to_table (v : evaluated) : Py.result DataFrame :=
  match v with
  | AFrame d => Py.Ok d
  | WithToFrame converted => converted
  | Other wrapped => wrapped
  end.

Section WithEval.

(** [eval(query)] with [df] in scope.  The expression is arbitrary Python:
    it answers or raises, and it may have changed the frame [df] names in
    place before it does, so the frame after the call is part of the
    outcome. *)
Variable py_eval : DataFrame -> str -> DataFrame * Py.result evaluated.

(** The frame [df] names when the function is left, and what the function
    returns. *)
Definition execute_pandas_query (df : DataFrame) (query : str)
    : DataFrame * Py.result DataFrame :=
  let cleaned := strip (strip_fences query) in
  let (df', outcome) := py_eval df cleaned in
  match (v <- outcome ;; to_table v) with
  | Py.Ok table => (df', Py.Ok table)
  | Py.Raise e =>
      if Py.is_Exception e then (df', Py.Ok (head 10 df'))
      else (df', Py.Raise e)
  end.

End WithEval.

End CsvProcessor.

(* ================================================================== *)
(** * chart_generator.py: chart type and the two backends *)
(* ================================================================== *)

Module ChartGenerator.
Import PyStr Pandas Llm.

Inductive backend : Type := Plotly | Matplotlib.

(** What a backend is asked to draw: the chart type its drawing branch was
    chosen by, the title, and one (label, value) pair per bar or wedge.
    Column names are taken to be distinct, as [read_csv] makes them. *)
Record figure : Type := mkFigure {
  fig_backend : backend;
  fig_type : str;
  fig_title : option str;
  fig_points : list (cell * cell)
}.

Definition points (df : DataFrame) (x y : str) : list (cell * cell) :=
  map (fun r => (cell_at df x r, cell_at df y r)) (rows df).

(** Lines 161-162: the labels of the rows, each with size 1. *)
Definition equal_points (df : DataFrame) (x : str) : list (cell * cell) :=
  map (fun r => (cell_at df x r, CNum 1)) (rows df).

(** Lines 53-56. *)
Definition slide_override (lowered_question chart_path : str)
    (chart_type : option str) : option str :=
  if contains (lit "slide 3") lowered_question || contains (lit "chart_3") chart_path
  then Some (lit "pie")
  else if contains (lit "slide 4") lowered_question
          || contains (lit "chart_4") chart_path
  then Some (lit "bar")
  else chart_type.

(** Lines 59-64: the label and value columns, and the frame with its
    [Index] column when it had a single column. *)
Definition prepare (df : DataFrame) : Py.result (str * str * DataFrame) :=
  match columns df with
  | (x, _) :: (y, _) :: _ => Py.Ok (x, y, df)
  | [(y, _)] => Py.Ok (lit "Index", y, assign_range (lit "Index") df)
  | [] => Py.Raise Py.IndexError
  end.

(** Lines 67-70. *)
Definition sample (df : DataFrame) : DataFrame :=
  if (25 <? len df)%nat then head 25 df else df.

(** Lines 85-88 and 155-160: the rows a pie is made of. *)
Definition top_data (df : DataFrame) (y : str) : DataFrame :=
  if is_numeric_dtype df y then nlargest 8 y df else head 8 df.

Definition plotly_title (question : str) : str :=
  if (50 <? length question)%nat then slice_to question 50 ++ lit "..."
  else question.

(** Lines 78-92: the Plotly figure for a chart type, when it has one. *)
Definition plotly_figure (df_sample : DataFrame) (x y question : str)
    (chart_type : option str) : option figure :=
  match chart_type with
  | Some t =>
      if PyStr.eqb t (lit "bar") then
        Some (mkFigure Plotly t (Some (plotly_title question))
                (points df_sample x y))
      else if PyStr.eqb t (lit "pie") then
        Some (mkFigure Plotly t (Some (plotly_title question))
                (points (top_data df_sample y) x y))
      else None
  | None => None
  end.

(** Lines 133-171: what matplotlib draws for a chart type. *)
Definition matplotlib_figure (df : DataFrame) (question t : str) : figure :=
  match columns df with
  | (x, _) :: (y, _) :: _ =>
      if PyStr.eqb t (lit "bar") then
        mkFigure Matplotlib t (Some question) (points df x y)
      else if PyStr.eqb t (lit "pie") then
        if is_numeric_dtype df y
        then mkFigure Matplotlib t (Some question) (points (nlargest 8 y df) x y)
        else mkFigure Matplotlib t (Some question) (equal_points (head 8 df) x)
      else mkFigure Matplotlib t (Some question) []
  | _ => mkFigure Matplotlib t None []
  end.

(** What a call of the renderer left at the chart path: the chart type and
    the points of the figure, none when it raised. *)
Definition rendered_type (r : Py.result figure) : option str :=
  match r with
  | Py.Ok fig => Some (fig_type fig)
  | Py.Raise _ => None
  end.

Definition rendered_points (r : Py.result figure) : list (cell * cell) :=
  match r with
  | Py.Ok fig => fig_points fig
  | Py.Raise _ => []
  end.

Section WithBackends.

Variable ai : completion.
Variable lower : str -> str.
Variable PLOTLY_AVAILABLE : bool.
(** Drawing and writing the image with either library: done, or raised. *)
Variable plotly_write : figure -> str -> Py.result unit.
Variable matplotlib_save : figure -> str -> Py.result unit.

Definition determine_chart_type (df : DataFrame) (question : str)
    : Py.result str :=
  text <- ai (ChartTypePrompt df question) ;;
  let response := lower (strip text) in
  Py.Ok (if PyStr.eqb response (lit "bar") || PyStr.eqb response (lit "pie")
         then response else lit "bar").

(** The figure written to [chart_path]. *)
Definition create_enhanced_matplotlib_chart (df : DataFrame)
    (question chart_path : str) (chart_type : option str) : Py.result figure :=
  t <- match chart_type with
       | None => determine_chart_type df question
       | Some t => Py.Ok t
       end ;;
  let fig := matplotlib_figure df question t in
  _ <- matplotlib_save fig chart_path ;;
  Py.Ok fig.

Definition create_plotly_chart (df : DataFrame) (question chart_path : str)
    (chart_type : option str) : Py.result figure :=
  if negb PLOTLY_AVAILABLE
  then create_enhanced_matplotlib_chart df question chart_path None
  else
    let chart_type := slide_override (lower question) chart_path chart_type in
    prepared <- prepare df ;;
    let '(x, y, df) := prepared in
    let df_sample := sample df in
    let fallback :=
      create_enhanced_matplotlib_chart df_sample question chart_path chart_type in
    match plotly_figure df_sample x y question chart_type with
    | Some fig =>
        match plotly_write fig chart_path with
        | Py.Ok _ => Py.Ok fig
        | Py.Raise e => if Py.is_Exception e then fallback else Py.Raise e
        end
    | None => fallback
    end.

Definition generate_chart (df : DataFrame) (question output_path : str)
    : Py.result figure :=
  chart_type <- determine_chart_type df question ;;
  create_plotly_chart df question output_path (Some chart_type).

(** The rows a backend is handed: the sample of lines 67-70 when Plotly is
    installed (the primary draws it, and the fallback is given it on line
    121); the whole table on the early exit of line 48. *)
Definition received (df : DataFrame) : DataFrame :=
  if PLOTLY_AVAILABLE then sample df else df.

End WithBackends.

End ChartGenerator.

(* ================================================================== *)
(** * ppt_generator.py: layout arithmetic, chart slides, templates *)
(* ================================================================== *)

Module Layout.
Import PyStr PyVal.

Local Open Scope float_scope.

(** [int(x)] of a float: the integer part, towards zero; no integer for
    an infinity or a NaN. *)
Definition int_of_float (x : float) : Py.result Z :=
  match Prim2SF x with
  | S754_zero _ => Py.Ok 0%Z
  | S754_finite negative m e =>
      let magnitude := Z.shiftl (Z.pos m) e in
      Py.Ok (if negative then (- magnitude)%Z else magnitude)
  | S754_infinity _ => Py.Raise Py.OverflowError
  | S754_nan => Py.Raise Py.ValueError
  end.

(** [pptx.util.Inches]: a length in English Metric Units, 914400 to the
    inch, [int(inches * 914400)]. *)
Definition EMUS_PER_INCH : float := 914400.

Definition Inches (inches : float) : Py.result Z :=
  int_of_float (inches * EMUS_PER_INCH).

Inductive alignment : Type := LEFT | CENTER.

Record geometry : Type := mkGeometry {
  left_percent : float;
  top_percent : float;
  width_percent : float;
  height_percent : float
}.

Record font : Type := mkFont {
  font_size : Z;
  font_bold : bool;
  align : alignment;
  color_rgb : Z * Z * Z
}.

Record title_element : Type := mkTitleElement {
  title_geometry : geometry;
  title_font : font;
  title_transparency : float
}.

Record picture_element : Type := mkPictureElement {
  picture_geometry : geometry;
  picture_transparency : float
}.

Record text_element : Type := mkTextElement {
  text_geometry : geometry;
  text_font : font;
  text_transparency : float;
  margin_left_percent : float;
  margin_right_percent : float;
  bullet_spacing : Z
}.

(** [SlideConfig]: the slide dimensions in inches and the chart slide's
    table (the tables of the other two slide types do not enter the
    functions embedded here). *)
Record SlideConfig : Type := mkSlideConfig {
  SLIDE_WIDTH : float;
  SLIDE_HEIGHT : float;
  CHART_SLIDE_title : title_element;
  CHART_SLIDE_chart : picture_element;
  CHART_SLIDE_text : text_element
}.

Definition default_config : SlideConfig :=
  mkSlideConfig 10 7.5
    (mkTitleElement (mkGeometry 5 10 90 12)
       (mkFont 24 true CENTER (255, 255, 255)%Z) 0)
    (mkPictureElement (mkGeometry 70 24 45 60) 0)
    (mkTextElement (mkGeometry 5 24 40 60)
       (mkFont 12 false LEFT (255, 255, 255)%Z) 10 2 2 8).

Record PPTTemplate : Type := mkTemplate {
  name : str;
  config : SlideConfig
}.

(** [PPTTemplate()] *)
Definition new_template : PPTTemplate := mkTemplate (lit "Default") default_config.

(** Lines 128-133. *)
Definition percent_to_inches (self : PPTTemplate) (percent_value : float)
    (dimension_type : str) : Py.result Z :=
  if PyStr.eqb dimension_type (lit "width")
  then Inches ((percent_value / 100) * SLIDE_WIDTH (config self))
  else Inches ((percent_value / 100) * SLIDE_HEIGHT (config self)).

(** Position and size of a shape, in EMU. *)
Record box : Type := mkBox {
  box_left : Z;
  box_top : Z;
  box_width : Z;
  box_height : Z
}.

Definition place (self : PPTTemplate) (g : geometry) : Py.result box :=
  l <- percent_to_inches self (left_percent g) (lit "width") ;;
  t <- percent_to_inches self (top_percent g) (lit "height") ;;
  w <- percent_to_inches self (width_percent g) (lit "width") ;;
  h <- percent_to_inches self (height_percent g) (lit "height") ;;
  Py.Ok (mkBox l t w h).

(** A text frame as the code fills it: the text assigned to the frame,
    then one entry per paragraph added, with the font they are given.
    [apply_transparency] sets an attribute of the fill that is not part of
    this picture of a shape. *)
Inductive shape : Type :=
| TextBox (at_ : box) (entries : list str) (style : font)
    (space_after : option Z) (margins : option (Z * Z))
| Picture (path : str) (at_ : box).

Definition is_picture (s : shape) : bool :=
  match s with
  | Picture _ _ => true
  | TextBox _ _ _ _ _ => false
  end.


Definition slide := list shape.

(** A presentation: how many slide layouts its master offers, and its
    slides in order. *)
Record Presentation : Type := mkPresentation {
  slide_layouts : nat;
  slides : list slide
}.

(** [Presentation()]: the built-in blank document, with the eleven layouts
    of python-pptx's default template and no slide. *)
Definition default_presentation : Presentation := mkPresentation 11 [].

(** The bullet glyph and a blank, then the text (lines 293 and 296). *)
Definition bullet_entry (b : str) : str := [8226%N; 32%N] ++ b.

Section WithFiles.

(** [os.path.exists] *)
Variable path_exists : str -> bool.
(** Reading the image file for [add_picture]: done, or raised. *)
Variable read_image : str -> Py.result unit.

(** Lines 241-307: the presentation with the new slide, and that slide. *)
Definition create_chart_slide (self : PPTTemplate) (prs : Presentation)
    (title_text chart_path : str) (bullet_points : list str)
    : Py.result (Presentation * slide) :=
  let title_config := CHART_SLIDE_title (config self) in
  let chart_config := CHART_SLIDE_chart (config self) in
  let text_config := CHART_SLIDE_text (config self) in
  _ <- (if (5 <? slide_layouts prs)%nat then Py.Ok tt
        else Py.Raise Py.IndexError) ;;
  title_at <- place self (title_geometry title_config) ;;
  let title_box :=
    TextBox title_at [title_text] (title_font title_config) None None in
  chart_shapes <-
    (if path_exists chart_path then
       l <- percent_to_inches self
              (left_percent (picture_geometry chart_config)) (lit "width") ;;
       t <- percent_to_inches self
              (top_percent (picture_geometry chart_config)) (lit "height") ;;
       w <- percent_to_inches self
              (width_percent (picture_geometry chart_config)) (lit "width") ;;
       h <- percent_to_inches self
              (height_percent (picture_geometry chart_config)) (lit "height") ;;
       _ <- read_image chart_path ;;
       Py.Ok [Picture chart_path (mkBox l t w h)]
     else Py.Ok []) ;;
  text_at <- place self (text_geometry text_config) ;;
  ml <- percent_to_inches self (margin_left_percent text_config) (lit "width") ;;
  mr <- percent_to_inches self (margin_right_percent text_config) (lit "width") ;;
  let text_box :=
    TextBox text_at (map bullet_entry bullet_points) (text_font text_config)
      (Some (bullet_spacing text_config)) (Some (ml, mr)) in
  let new_slide := title_box :: chart_shapes ++ [text_box] in
  Py.Ok (mkPresentation (slide_layouts prs) (slides prs ++ [new_slide]),
         new_slide).

End WithFiles.

(** The three shapes of a chart slide of the default template, with the
    lengths [percent_to_inches] gives its table. *)
Definition chart_title_box (title_text : str) : shape :=
  TextBox (mkBox 457200 685800 8229600 822959) [title_text]
    (mkFont 24 true CENTER (255, 255, 255)%Z) None None.

Definition chart_picture (chart_path : str) : shape :=
  Picture chart_path (mkBox 6400800 1645919 4114800 4114800).

Definition chart_text_box (bullet_points : list str) : shape :=
  TextBox (mkBox 457200 1645919 3657600 4114800)
    (map bullet_entry bullet_points)
    (mkFont 12 false LEFT (255, 255, 255)%Z) (Some 8%Z)
    (Some (182880, 182880)%Z).

(** [Path(p).stem]: the last component of the path without its last
    suffix. *)
Definition basename (p : str) : str :=
  let i := rfind [47%N] p in
  if (i =? -1)%Z then p else slice_from p (i + 1).

Definition stem (p : str) : str :=
  let file := basename p in
  let i := rfind [46%N] file in
  if (0 <? i)%Z && (i <? Z.of_nat (length file) - 1)%Z
  then slice_to file i else file.

(** [s.replace(a, b)] for single characters. *)
Definition replace_char (a b : codepoint) (s : str) : str :=
  map (fun c => if cp_eqb c a then b else c) s.

(** The truth value of a dictionary entry of the template table. *)
Definition truthy (v : value) : bool :=
  match v with
  | VStr (_ :: _) => true
  | _ => false
  end.

Section WithTemplates.

Variable lower : str -> str.
(** [os.makedirs(folder, exist_ok=True)] *)
Variable makedirs : str -> Py.result unit.
(** [glob.glob(os.path.join(folder, "*.pptx"))] *)
Variable glob_pptx : str -> list str.
(** [Presentation(path)]: the document of a file, or what reading it
    raised. *)
Variable open_presentation : str -> Py.result Presentation.
(** Dropping the relationship of the slide at an index and deleting its
    entry (lines 491-493). *)
Variable drop_slide : Presentation -> nat -> Py.result Presentation.

(** Line 470. *)
Definition template_key (pptx_file : str) : str :=
  replace_char 45%N 95%N (replace_char 32%N 95%N (lower (stem pptx_file))).

Definition scan_pptx_templates (templates_folder : str) : Py.result dict :=
  _ <- makedirs templates_folder ;;
  let template_files :=
    fold_left (fun d f => dict_set d (template_key f) (VStr f))
      (glob_pptx templates_folder) [] in
  Py.Ok (match template_files with
         | [] => [(lit "default", VNone)]
         | _ :: _ => template_files
         end).

(** Lines 489-493: the slides go, last first. *)
Fixpoint drop_slides (n : nat) (prs : Presentation) : Py.result Presentation :=
  match n with
  | O => Py.Ok prs
  | S i => prs' <- drop_slide prs i ;; drop_slides i prs'
  end.

Definition load_pptx_template (template_name templates_folder : str)
    : Py.result Presentation :=
  available_templates <- scan_pptx_templates templates_folder ;;
  let template_name := lower template_name in
  match dict_get available_templates template_name with
  | Some (VStr ((_ :: _) as path)) =>
      match (prs <- open_presentation path ;;
             drop_slides (length (slides prs)) prs) with
      | Py.Ok prs => Py.Ok prs
      | Py.Raise e =>
          if Py.is_Exception e then Py.Ok default_presentation
          else Py.Raise e
      end
  | _ => Py.Ok default_presentation
  end.

End WithTemplates.

End Layout.

(* ================================================================== *)
(** * Inputs and collaborators for the examples *)
(* ================================================================== *)

Module Fixtures.
Import PyStr PyVal Llm Pandas CsvProcessor ChartGenerator Layout.

Local Open Scope float_scope.

(** An analysis result for the examples: the question and summary of a
    sales table of two columns. *)
Definition sales_table : Pandas.DataFrame :=
  Pandas.mkDataFrame
    [(lit "Region", Pandas.Object); (lit "Sales", Pandas.Numeric)]
    [[Pandas.CStr (lit "North"); Pandas.CNum 120];
     [Pandas.CStr (lit "South"); Pandas.CNum 80]].

Definition sales_analysis : analysis_result :=
  mkAnalysis (lit "df.groupby('Region').sum()") sales_table
    (lit "North leads the two regions.")
    (lit "Which region sells the most?").

(** A model that answers every prompt with the same text. *)
Definition answering (text : str) : completion := fun _ => Py.Ok text.

(** A chart slide with one outline bullet. *)
Definition one_bullet_slide : dict :=
  [(lit "slide_no", VInt 3);
   (lit "title", VStr (lit "Primary Data Insights"));
   (lit "type", VStr (lit "chart"));
   (lit "content", VList [VStr (lit "Revenue grew")])].

(** A completion of two lines, both long enough to be kept. *)
Definition two_lines : str :=
  lit "1. Revenue grew nine percent in the north" ++ [10%N]
  ++ lit "2. Margins widened in every region this year".

(** A slide with an empty outline. *)
Definition empty_outline_slide : dict :=
  [(lit "slide_no", VInt 2);
   (lit "title", VStr (lit "Data Overview"));
   (lit "type", VStr (lit "content"));
   (lit "content", VList [])].

Definition emptied (df : DataFrame) : DataFrame := mkDataFrame (columns df) [].

Definition drop_then_head : str := lit "df.drop(df.index, inplace=True).head()".

(** [eval] on two expressions.  [df.drop(df.index, inplace=True)] empties
    the frame in place and answers [None], on which [.head()] raises an
    [AttributeError]; the other expression is one the parser refuses, and
    the frame stays as it is. *)
Definition eval_examples (df : DataFrame) (query : str)
    : DataFrame * Py.result evaluated :=
  if PyStr.eqb query drop_then_head
  then (emptied df, Py.Raise Py.AttributeError)
  else (df, Py.Raise Py.SyntaxError).

(** A backend that draws and writes every figure, and one that always
    raises. *)
Definition written : figure -> str -> Py.result unit := fun _ _ => Py.Ok tt.
Definition refused : figure -> str -> Py.result unit :=
  fun _ _ => Py.Raise Py.CollaboratorError.

(** A table of 26 rows, regions A to Z with sales 1 to 26: the largest
    value is in the last row. *)
Definition long_table : DataFrame :=
  mkDataFrame
    [(lit "Region", Object); (lit "Sales", Numeric)]
    (map (fun i => [CStr [N.of_nat (64 + i)]; CNum (Z.of_nat i)]) (seq 1 26)).

(** A template with another name and another chart-slide table, on the
    same slide dimensions. *)
Definition wide_chart_template : PPTTemplate :=
  mkTemplate (lit "Wide")
    (mkSlideConfig 10 7.5
       (mkTitleElement (mkGeometry 0 0 100 10)
          (mkFont 30 false LEFT (0, 0, 0)%Z) 50)
       (mkPictureElement (mkGeometry 10 20 80 70) 0)
       (mkTextElement (mkGeometry 0 90 100 10)
          (mkFont 10 false LEFT (0, 0, 0)%Z) 0 1 1 4)).

(** A file system with no file, and an image reader that would raise. *)
Definition no_file : str -> bool := fun _ => false.
Definition unreadable : str -> Py.result unit := fun _ => Py.Raise Py.OSError.

(** A template folder with one file, which cannot be opened. *)
Definition created : str -> Py.result unit := fun _ => Py.Ok tt.
Definition one_template : str -> list str :=
  fun _ => [lit "templates/Modern Blue-2024.pptx"].
Definition corrupt : str -> Py.result Presentation :=
  fun _ => Py.Raise Py.ValueError.
Definition dropped : Presentation -> nat -> Py.result Presentation :=
  fun prs _ => Py.Ok prs.

(** A table of one column and ten rows, as [to_frame] makes of a series. *)
Definition one_column_table : DataFrame :=
  mkDataFrame [(lit "Sales", Numeric)]
    (map (fun z => [CNum z]) [5; 1; 9; 8; 7; 6; 4; 3; 2; 10]%Z).

End Fixtures.

(* ================================================================== *)
(** * The model on concrete inputs *)
(* ================================================================== *)

Module ModelChecks.
Import PyStr PyVal Pandas PptGenerator CsvProcessor Layout.

Local Open Scope float_scope.

(** Sanity checks of the string model against CPython. *)
Example split_fence :
  PyStr.split (PyStr.lit "```") (PyStr.lit "a```json{}```b")
  = [PyStr.lit "a"; PyStr.lit "json{}"; PyStr.lit "b"].
Proof. reflexivity. Qed.

Example find_rfind_braces :
  PyStr.find (PyStr.lit "{") (PyStr.lit "x{a}{b}y") = 1%Z
  /\ PyStr.rfind (PyStr.lit "}") (PyStr.lit "x{a}{b}y") = 6%Z
  /\ PyStr.rfind (PyStr.lit "}") (PyStr.lit "none") = (-1)%Z.
Proof. repeat split; reflexivity. Qed.

Example strip_both : PyStr.strip (PyStr.lit "  a b  ") = PyStr.lit "a b".
Proof. reflexivity. Qed.

Example loads_object :
  Json.loads (Json.jlit " {'a': [1, -2.5e3, 'xA', null], 'a': true} ")
  = Py.Ok (PyVal.VDict [(PyStr.lit "a", PyVal.VBool true)]).
Proof. vm_compute. reflexivity. Qed.

Example loads_nested :
  Json.loads (Json.jlit "{'slides': [{'slide_no': 1, 'content': ['a', 'b']}]}")
  = Py.Ok (PyVal.VDict
      [(PyStr.lit "slides",
        PyVal.VList [PyVal.VDict
          [(PyStr.lit "slide_no", PyVal.VInt 1);
           (PyStr.lit "content",
            PyVal.VList [PyVal.VStr (PyStr.lit "a"); PyVal.VStr (PyStr.lit "b")])]])]).
Proof. vm_compute. reflexivity. Qed.

Example loads_refuses :
  Json.loads (PyStr.lit "Sure! Here is the outline.") = Py.Raise Py.ValueError
  /\ Json.loads (Json.jlit "{'a': 1,}") = Py.Raise Py.ValueError
  /\ Json.loads (Json.jlit "[1, 2] x") = Py.Raise Py.ValueError
  /\ Json.loads [] = Py.Raise Py.ValueError.
Proof. repeat split; vm_compute; reflexivity. Qed.

Example nlargest_ties :
  Pandas.rows
    (Pandas.nlargest 2 (PyStr.lit "v")
       (Pandas.mkDataFrame
          [(PyStr.lit "k", Pandas.Object); (PyStr.lit "v", Pandas.Numeric)]
          [[Pandas.CStr (PyStr.lit "a"); Pandas.CNum 3];
           [Pandas.CStr (PyStr.lit "b"); Pandas.CNum 7];
           [Pandas.CStr (PyStr.lit "c"); Pandas.CNum 3];
           [Pandas.CStr (PyStr.lit "d"); Pandas.CNum 1]]))
  = [[Pandas.CStr (PyStr.lit "b"); Pandas.CNum 7];
     [Pandas.CStr (PyStr.lit "a"); Pandas.CNum 3]].
Proof. reflexivity. Qed.

Example clean_line_numbered :
  clean_line (lit "  12. Revenue grew nine percent  ")
  = lit "Revenue grew nine percent".
Proof. vm_compute. reflexivity. Qed.

Example enhanced_points_drops_short_lines :
  enhanced_points
    ([8226%N; 32%N] ++ lit "Too short" ++ [10%N] ++ lit "- Margins widened in every region")
  = [lit "Margins widened in every region"].
Proof. vm_compute. reflexivity. Qed.

Example strip_fences_block :
  strip (strip_fences (lit "```python" ++ [10%N] ++ lit "df.head()" ++ [10%N]
                       ++ lit "```"))
  = lit "df.head()".
Proof. vm_compute. reflexivity. Qed.

(** Lengths of the chart slide's table, in EMU.  The product is an IEEE
    double and [Inches] cuts it to an integer: 24 percent of the height is
    one EMU short of 1.8 inches. *)
Example percent_to_inches_values :
  percent_to_inches new_template 5 (lit "width") = Py.Ok 457200%Z
  /\ percent_to_inches new_template 90 (lit "width") = Py.Ok 8229600%Z
  /\ percent_to_inches new_template 10 (lit "height") = Py.Ok 685800%Z
  /\ percent_to_inches new_template 24 (lit "height") = Py.Ok 1645919%Z
  /\ percent_to_inches new_template 60 (lit "anything") = Py.Ok 4114800%Z.
Proof. repeat split; vm_compute; reflexivity. Qed.

End ModelChecks.

(* ================================================================== *)
(** * Facts about Python strings and slices *)
(* ================================================================== *)

Module PyStrFacts.
Import PyStr.

Lemma split_aux_not_nil (sep : str) (s : str) :
  forall skip cur, split_aux sep skip cur s <> [].
Proof.
  induction s as [|c s IH]; intros skip cur; simpl.
  - discriminate.
  - destruct skip as [|k].
    + destruct (startswith sep (c :: s)); [discriminate | apply IH].
    + apply IH.
Qed.

Lemma startswith_nil_r (sep : str) : sep <> [] -> startswith sep [] = false.
Proof. destruct sep; [congruence | reflexivity]. Qed.

(** A separator that occurs leaves at least two pieces. *)
Lemma split_aux_second (sep : str) (Hsep : sep <> []) (s : str) :
  forall i cur,
    find_from sep s i <> (-1)%Z ->
    exists a b rest, split_aux sep 0 cur s = a :: b :: rest.
Proof.
  induction s as [|c s IH]; intros i cur Hfind.
  - simpl in Hfind. rewrite (startswith_nil_r Hsep) in Hfind. congruence.
  - cbn [find_from] in Hfind. cbn [split_aux].
    destruct (startswith sep (c :: s)) eqn:Hhead.
    + destruct (split_aux sep (length sep - 1) [] s) as [|b rest] eqn:Hrest.
      * exfalso. exact (split_aux_not_nil _ _ _ _ Hrest).
      * exists (rev cur), b, rest. reflexivity.
    + exact (IH (i + 1)%Z (c :: cur) Hfind).
Qed.

Lemma split_second (sep s : str) :
  sep <> [] -> contains sep s = true ->
  exists a b rest, split sep s = a :: b :: rest.
Proof.
  intros Hsep Hin. unfold contains, find in Hin. unfold split.
  apply (split_aux_second Hsep s 0%Z []).
  intros Heq. rewrite Heq in Hin. discriminate.
Qed.

Lemma firstn_past_length {A : Type} (l : list A) (n : nat) :
  firstn (Nat.min n (length l)) l = firstn n l.
Proof.
  destruct (Nat.le_ge_cases n (length l)) as [H | H].
  - rewrite Nat.min_l by exact H. reflexivity.
  - rewrite Nat.min_r by exact H.
    rewrite firstn_all. symmetry. apply firstn_all2. exact H.
Qed.

(** [l[:j]] for a [j] that is not negative is the first [j] elements. *)
Lemma slice_to_firstn {A : Type} (l : list A) (j : Z) :
  (0 <= j)%Z -> slice_to l j = firstn (Z.to_nat j) l.
Proof.
  intros Hj. unfold slice_to, slice, clamp.
  assert (H0 : (0 <? 0)%Z = false) by reflexivity. rewrite H0.
  assert (Hj' : (j <? 0)%Z = false) by (apply Z.ltb_ge; exact Hj). rewrite Hj'.
  rewrite Z.min_l by lia. cbn [Z.to_nat skipn].
  rewrite <- (firstn_past_length l (Z.to_nat j)).
  f_equal. lia.
Qed.

Lemma eqb_refl (s : str) : PyStr.eqb s s = true.
Proof.
  induction s as [|c s IH]; simpl; [reflexivity|].
  unfold cp_eqb. rewrite N.eqb_refl. exact IH.
Qed.

Lemma eqb_eq (a b : str) : PyStr.eqb a b = true <-> a = b.
Proof.
  split.
  - revert b. induction a as [|x a IH]; intros [|y b] H; simpl in H;
      try discriminate; [reflexivity|].
    apply andb_true_iff in H. destruct H as [Hxy Hab].
    apply N.eqb_eq in Hxy. apply IH in Hab. congruence.
  - intros ->. apply eqb_refl.
Qed.

End PyStrFacts.

Module PyValFacts.
Import PyStr PyVal.

Lemma dict_get_set_same (d : dict) (k : str) (v : value) :
  dict_get (dict_set d k v) k = Some v.
Proof.
  induction d as [|[k' v'] d IH]; simpl.
  - rewrite PyStrFacts.eqb_refl. reflexivity.
  - destruct (PyStr.eqb k' k) eqn:Hk; simpl; rewrite Hk; [reflexivity | exact IH].
Qed.

Lemma dict_get_set_other (d : dict) (k k' : str) (v : value) :
  PyStr.eqb k k' = false ->
  dict_get (dict_set d k v) k' = dict_get d k'.
Proof.
  intros Hne. induction d as [|[k0 v0] d IH]; simpl.
  - rewrite Hne. reflexivity.
  - destruct (PyStr.eqb k0 k) eqn:Hk; simpl.
    + destruct (PyStr.eqb k0 k') eqn:Hk'; [|reflexivity].
      apply PyStrFacts.eqb_eq in Hk, Hk'. subst.
      rewrite PyStrFacts.eqb_refl in Hne. discriminate.
    + destruct (PyStr.eqb k0 k'); [reflexivity | exact IH].
Qed.

End PyValFacts.

(* ================================================================== *)
(** * The skeleton synthesizer *)
(* ================================================================== *)

Module SkeletonFacts.
Import PyStr PyVal Llm PptGenerator Fixtures.

Lemma fence_not_nil : fence <> [].
Proof. discriminate. Qed.

(** Isolating the JSON payload never raises: the index 1 of line 352 is
    there whenever the text has a fence. *)
Lemma extract_json_returns (response : str) :
  exists payload, extract_json response = Py.Ok payload.
Proof.
  unfold extract_json.
  destruct (contains fence response) eqn:Hfence.
  - destruct (@PyStrFacts.split_second fence response fence_not_nil Hfence) as [a [b [rest Hsplit]]].
    rewrite Hsplit. cbn [Py.bind]. eexists. reflexivity.
  - cbn [Py.bind]. eexists. reflexivity.
Qed.

(** The hardcoded skeleton has the five slides of the template, whatever
    the question and the summary are. *)
Lemma fallback_follows_template (ar : analysis_result) :
  follows_template (fallback_skeleton ar).
Proof.
  unfold follows_template, fallback_skeleton.
  eexists. split; [reflexivity|]. split; reflexivity.
Qed.

(** The title of the first fallback slide carries the first 35 characters
    of the question. *)
Lemma fallback_first_title (ar : analysis_result) :
  exists first others,
    slides_of (fallback_skeleton ar) = Some (first :: others)
    /\ first = slide_entry 1
         (lit "Executive Summary: "
          ++ firstn 35 (original_question ar))
         "title"
         [lit "Key insights and findings from comprehensive data analysis"].
Proof.
  unfold fallback_skeleton. do 2 eexists. split; [reflexivity|].
  rewrite PyStrFacts.slice_to_firstn by lia. reflexivity.
Qed.

Section WithCollaborators.

Variable ai : completion.
Variable json_loads : str -> Py.result value.

(** C1, as the code has it.  When the LLM answers, the payload is isolated
    without error; if [json.loads] refuses the payload, the hardcoded
    fallback is returned, and it has exactly the five slides of the template
    (1=title, 2=content, 3=chart, 4=chart, 5=content); if [json.loads]
    accepts the payload, the parsed value is returned as it is. *)
Theorem create_ppt_skeleton_outcomes (ar : analysis_result)
    (template_name text : str) :
  ai (SkeletonPrompt (original_question ar) (slice_to (summary ar) 400)
        template_name) = Py.Ok text ->
  exists payload,
    extract_json (strip text) = Py.Ok payload
    /\ (forall e, json_loads payload = Py.Raise e ->
          create_ppt_skeleton ai json_loads ar template_name
          = Py.Ok (fallback_skeleton ar))
    /\ (forall parsed, json_loads payload = Py.Ok parsed ->
          create_ppt_skeleton ai json_loads ar template_name = Py.Ok parsed)
    /\ follows_template (fallback_skeleton ar).
Proof.
  intros Hai.
  destruct (extract_json_returns (strip text)) as [payload Hpayload].
  exists payload. split; [exact Hpayload|].
  unfold create_ppt_skeleton. rewrite Hai. cbn [Py.bind].
  rewrite Hpayload. cbn [Py.bind].
  split; [|split].
  - intros e He. rewrite He. reflexivity.
  - intros parsed Hp. rewrite Hp. reflexivity.
  - apply fallback_follows_template.
Qed.

End WithCollaborators.

(** The theorem at a completion that is prose, not JSON: the decoder
    refuses it and the fallback comes back. *)
Lemma create_ppt_skeleton_outcomes_witness :
  create_ppt_skeleton (answering (lit "Sorry, I cannot help with that."))
    Json.loads sales_analysis (lit "default")
  = Py.Ok (fallback_skeleton sales_analysis)
  /\ follows_template (fallback_skeleton sales_analysis).
Proof.
  destruct (create_ppt_skeleton_outcomes
              (answering (lit "Sorry, I cannot help with that.")) Json.loads
              sales_analysis (lit "default")
              (text := lit "Sorry, I cannot help with that.") eq_refl)
    as [payload [Hpayload [Hrefused [_ Htemplate]]]].
  split; [|exact Htemplate].
  apply (Hrefused Py.ValueError).
  vm_compute in Hpayload. injection Hpayload as <-.
  vm_compute. reflexivity.
Defined.

(** C1 as stated fails on a completion that is valid JSON with no slide:
    it is returned as parsed, and it does not follow the template. *)
Lemma valid_json_is_not_checked :
  create_ppt_skeleton (answering (Json.jlit "{'slides': []}")) Json.loads
    sales_analysis (lit "default")
  = Py.Ok (VDict [(lit "slides", VList [])])
  /\ ~ follows_template (VDict [(lit "slides", VList [])]).
Proof.
  split.
  - vm_compute. reflexivity.
  - intros [slides [Hs [Hlen _]]]. vm_compute in Hs.
    injection Hs as <-. discriminate Hlen.
Qed.

End SkeletonFacts.

(* ================================================================== *)
(** * The content enhancer *)
(* ================================================================== *)

Module EnhanceFacts.
Import PyStr PyVal Llm PptGenerator Fixtures.

Lemma firstn_4_bounds {A : Type} (l : list A) :
  l <> [] -> (1 <= length (firstn 4 l) <= 4)%nat.
Proof.
  intros Hne. destruct l as [|a l]; [congruence|].
  split.
  - simpl. lia.
  - rewrite length_firstn. lia.
Qed.

Section WithModel.

Variable ai : completion.

(** The prompt of a slide that has a title and a type and whose outline is
    a list. *)
Lemma enhance_prompt_of_list (slide : dict) (ar : analysis_result)
    (title type : value) (outline : list value) :
  dict_get slide (lit "title") = Some title ->
  dict_get slide (lit "type") = Some type ->
  outline_of slide = VList outline ->
  enhance_prompt slide ar
  = Py.Ok (EnhancePrompt title (VList outline) (original_question ar)
             (slice_to (summary ar) 300) type (Z.of_nat (length outline))).
Proof.
  intros Ht Hty Hout. unfold enhance_prompt, getitem.
  rewrite Ht, Hty, Hout. reflexivity.
Qed.

(** What the function leaves in the slide, by the lines that were kept. *)
Lemma enhance_slide_content_result (slide : dict) (ar : analysis_result)
    (title type : value) (outline : list value) (text : str) :
  dict_get slide (lit "title") = Some title ->
  dict_get slide (lit "type") = Some type ->
  outline_of slide = VList outline ->
  ai (EnhancePrompt title (VList outline) (original_question ar)
        (slice_to (summary ar) 300) type (Z.of_nat (length outline)))
  = Py.Ok text ->
  enhance_slide_content ai slide ar
  = Py.Ok (dict_set slide (lit "content")
             (VList (match enhanced_points text with
                     | [] => firstn 4 outline
                     | _ :: _ => map VStr (firstn 4 (enhanced_points text))
                     end))).
Proof.
  intros Ht Hty Hout Hai. unfold enhance_slide_content.
  rewrite (enhance_prompt_of_list slide ar Ht Hty Hout). cbn [Py.bind].
  rewrite Hai. cbn [Py.bind].
  destruct (enhanced_points text) as [|p ps] eqn:Hpts.
  - rewrite Hout. cbn [py_slice_to Py.bind].
    rewrite PyStrFacts.slice_to_firstn by lia. reflexivity.
  - cbn [Py.bind]. rewrite PyStrFacts.slice_to_firstn by lia. reflexivity.
Qed.

(** C2, as the code has it.  For a slide whose outline has N >= 1 bullets:
    when at least one cleaned line of the completion is usable, the slide
    gets the first four usable lines at most, so between 1 and 4 bullets
    (the bound is 4, whatever N is); when no line is usable, it keeps the
    first min(N,4) bullets of the outline; it is never left empty. *)
Theorem enhance_slide_content_bullets (slide : dict) (ar : analysis_result)
    (title type : value) (outline : list value) (text : str) :
  dict_get slide (lit "title") = Some title ->
  dict_get slide (lit "type") = Some type ->
  dict_get slide (lit "content") = Some (VList outline) ->
  (1 <= length outline)%nat ->
  ai (EnhancePrompt title (VList outline) (original_question ar)
        (slice_to (summary ar) 300) type (Z.of_nat (length outline)))
  = Py.Ok text ->
  exists bullets,
    enhance_slide_content ai slide ar
    = Py.Ok (dict_set slide (lit "content") (VList bullets))
    /\ dict_get (dict_set slide (lit "content") (VList bullets)) (lit "content")
       = Some (VList bullets)
    /\ (enhanced_points text <> [] ->
        bullets = map VStr (firstn 4 (enhanced_points text))
        /\ (1 <= length bullets <= 4)%nat)
    /\ (enhanced_points text = [] ->
        bullets = firstn 4 outline
        /\ length bullets = Nat.min (length outline) 4)
    /\ bullets <> [].
Proof.
  intros Ht Hty Hc Hn Hai.
  assert (Hout : outline_of slide = VList outline).
  { unfold outline_of, get_default. rewrite Hc. reflexivity. }
  rewrite (enhance_slide_content_result slide ar Ht Hty Hout Hai).
  eexists. split; [reflexivity|].
  split; [apply PyValFacts.dict_get_set_same|].
  destruct (enhanced_points text) as [|p ps] eqn:Hpts.
  - split; [congruence|]. split.
    + intros _. split; [reflexivity|]. rewrite length_firstn. lia.
    + destruct outline as [|o os]; [simpl in Hn; lia | discriminate].
  - split; [|split].
    + intros _. split; [reflexivity|].
      rewrite length_map. apply firstn_4_bounds. discriminate.
    + discriminate.
    + discriminate.
Qed.

(** C10.  A slide whose outline is the empty list (or that has no
    ["content"] entry, which [get] reads as the empty list) and whose
    completion yields no usable line comes back, without an error, with the
    empty list as its content. *)
Theorem enhance_slide_content_empty_outline (slide : dict)
    (ar : analysis_result) (title type : value) (text : str) :
  dict_get slide (lit "title") = Some title ->
  dict_get slide (lit "type") = Some type ->
  outline_of slide = VList [] ->
  ai (EnhancePrompt title (VList []) (original_question ar)
        (slice_to (summary ar) 300) type 0) = Py.Ok text ->
  enhanced_points text = [] ->
  enhance_slide_content ai slide ar
  = Py.Ok (dict_set slide (lit "content") (VList []))
  /\ dict_get (dict_set slide (lit "content") (VList [])) (lit "content")
     = Some (VList []).
Proof.
  intros Ht Hty Hout Hai Hpts.
  split; [|apply PyValFacts.dict_get_set_same].
  rewrite (enhance_slide_content_result slide ar (outline := []) Ht Hty Hout Hai).
  rewrite Hpts. reflexivity.
Qed.

End WithModel.

(** The theorem at a slide of one bullet and a completion of two lines. *)
Lemma enhance_slide_content_bullets_witness :
  exists bullets,
    enhance_slide_content (answering two_lines) one_bullet_slide
      sales_analysis
    = Py.Ok (dict_set one_bullet_slide (lit "content") (VList bullets))
    /\ (1 <= length bullets <= 4)%nat.
Proof.
  destruct (enhance_slide_content_bullets
              (answering two_lines) one_bullet_slide
              sales_analysis
              (title := VStr (lit "Primary Data Insights"))
              (type := VStr (lit "chart"))
              (outline := [VStr (lit "Revenue grew")])
              (text := two_lines)
              eq_refl eq_refl eq_refl (le_n 1) eq_refl)
    as [bullets [Hrun [_ [Hkept _]]]].
  exists bullets. split; [exact Hrun|].
  apply Hkept. vm_compute. discriminate.
Defined.

(** C2 as stated fails on an outline of one bullet and a completion of two
    usable lines: the slide ends with two bullets, more than min(1,4). *)
Lemma two_lines_for_one_bullet :
  enhance_slide_content (answering two_lines) one_bullet_slide
    sales_analysis
  = Py.Ok (dict_set one_bullet_slide (lit "content")
             (VList [VStr (lit "Revenue grew nine percent in the north");
                     VStr (lit "Margins widened in every region this year")]))
  /\ ~ (2 <= Nat.min 1 4)%nat.
Proof.
  split.
  - vm_compute. reflexivity.
  - simpl. lia.
Qed.

(** The theorem at an empty outline and an empty completion. *)
Lemma enhance_slide_content_empty_outline_witness :
  enhance_slide_content (answering []) empty_outline_slide
    sales_analysis
  = Py.Ok (dict_set empty_outline_slide (lit "content") (VList []))
  /\ dict_get (dict_set empty_outline_slide (lit "content") (VList []))
       (lit "content")
     = Some (VList []).
Proof.
  apply (enhance_slide_content_empty_outline
           (answering []) empty_outline_slide
           sales_analysis
           (title := VStr (lit "Data Overview"))
           (type := VStr (lit "content"))
           (text := [])); reflexivity.
Defined.

End EnhanceFacts.

(* ================================================================== *)
(** * The query executor *)
(* ================================================================== *)

Module ExecutorFacts.
Import PyStr Pandas CsvProcessor Fixtures.

Lemma head_len (n : nat) (df : DataFrame) :
  len (head n df) = Nat.min n (len df).
Proof. unfold len, head. simpl. apply length_firstn. Qed.

Lemma head_columns (n : nat) (df : DataFrame) :
  columns (head n df) = columns df.
Proof. reflexivity. Qed.

Section WithEval.

Variable py_eval : DataFrame -> str -> DataFrame * Py.result evaluated.

(** An error of the conversion to a table (lines 38-42) is handled as an
    error of the evaluation is. *)
Lemma execute_pandas_query_handler (df df' : DataFrame) (query : str)
    (outcome : Py.result evaluated) (e : Py.exn) :
  py_eval df (strip (strip_fences query)) = (df', outcome) ->
  (v <- outcome ;; to_table v) = Py.Raise e ->
  execute_pandas_query py_eval df query
  = (df', if Py.is_Exception e then Py.Ok (head 10 df') else Py.Raise e).
Proof.
  intros Heval Hraise. unfold execute_pandas_query.
  rewrite Heval, Hraise. destruct (Py.is_Exception e); reflexivity.
Qed.

(** C3, as the code has it.  When the evaluation of the cleaned expression
    raises an exception of class [Exception], the executor does not
    propagate it: it returns the first min(10, row count) rows, with the
    columns in their order, of the frame [df] names at that moment, which is
    the dataset as the failed evaluation left it, and the dataset as passed
    whenever the expression did not change it in place. *)
Theorem execute_pandas_query_fallback (df df' : DataFrame) (query : str)
    (e : Py.exn) :
  py_eval df (strip (strip_fences query)) = (df', Py.Raise e) ->
  Py.is_Exception e = true ->
  execute_pandas_query py_eval df query = (df', Py.Ok (head 10 df'))
  /\ rows (head 10 df') = firstn 10 (rows df')
  /\ len (head 10 df') = Nat.min 10 (len df')
  /\ columns (head 10 df') = columns df'
  /\ (df' = df ->
      snd (execute_pandas_query py_eval df query) = Py.Ok (head 10 df)).
Proof.
  intros Heval He.
  assert (Hrun : execute_pandas_query py_eval df query
                 = (df', Py.Ok (head 10 df'))).
  { rewrite (@execute_pandas_query_handler df df' query (Py.Raise e) e Heval eq_refl).
    rewrite He. reflexivity. }
  split; [exact Hrun|].
  split; [reflexivity|].
  split; [apply head_len|].
  split; [reflexivity|].
  intros <-. rewrite Hrun. reflexivity.
Qed.

End WithEval.

(** The theorem at an expression the parser refuses. *)
Lemma execute_pandas_query_fallback_witness :
  execute_pandas_query eval_examples sales_table
    (lit "```" ++ [10%N] ++ lit "df.groupby(")
  = (sales_table, Py.Ok (head 10 sales_table))
  /\ len (head 10 sales_table) = 2%nat.
Proof.
  destruct (execute_pandas_query_fallback eval_examples
              sales_table
              (df' := sales_table)
              (lit "```" ++ [10%N] ++ lit "df.groupby(")
              (e := Py.SyntaxError) eq_refl eq_refl)
    as [Hrun [_ [Hlen _]]].
  split; [exact Hrun|]. rewrite Hlen. reflexivity.
Defined.

(** C3 as stated fails on an expression that changes the frame in place
    before it raises: the rows returned are those of the frame as it was
    left, here none, and not the first min(10, 2) rows of the dataset that
    was passed. *)
Lemma fallback_after_in_place_change :
  snd (execute_pandas_query eval_examples sales_table
         drop_then_head)
  = Py.Ok (emptied sales_table)
  /\ emptied sales_table <> head 10 sales_table
  /\ len (emptied sales_table)
     <> Nat.min 10 (len sales_table).
Proof.
  split; [vm_compute; reflexivity|].
  split; [discriminate | vm_compute; discriminate].
Qed.

End ExecutorFacts.

(* ================================================================== *)
(** * Facts about tables *)
(* ================================================================== *)

Module PandasFacts.
Import PyStr Pandas.

Section Ranking.

Variable k : list cell -> Z.

(** [a] ranks at least as high as [b]. *)
Definition outranks (a b : list cell) : Prop := (k b <= k a)%Z.

Lemma insert_desc_perm (r : list cell) (l : list (list cell)) :
  Permutation (insert_desc k r l) (r :: l).
Proof.
  induction l as [|r' l IH]; simpl.
  - apply Permutation_refl.
  - destruct (k r' <=? k r)%Z.
    + apply Permutation_refl.
    + apply perm_trans with (r' :: r :: l).
      * apply perm_skip. exact IH.
      * apply perm_swap.
Qed.

Lemma sort_desc_perm (l : list (list cell)) : Permutation (sort_desc k l) l.
Proof.
  induction l as [|r l IH]; simpl.
  - apply perm_nil.
  - apply perm_trans with (r :: sort_desc k l).
    + apply insert_desc_perm.
    + apply perm_skip. exact IH.
Qed.

Lemma insert_desc_sorted (r : list cell) (l : list (list cell)) :
  StronglySorted outranks l -> StronglySorted outranks (insert_desc k r l).
Proof.
  induction l as [|r' l IH]; intros Hs; simpl.
  - constructor; constructor.
  - apply StronglySorted_inv in Hs. destruct Hs as [Hl Hall].
    destruct (k r' <=? k r)%Z eqn:Hcmp.
    + apply Z.leb_le in Hcmp. constructor.
      * constructor; assumption.
      * constructor; [exact Hcmp|].
        apply Forall_forall. intros x Hx.
        rewrite Forall_forall in Hall. specialize (Hall x Hx).
        unfold outranks in *. lia.
    + apply Z.leb_gt in Hcmp. constructor.
      * apply IH. exact Hl.
      * apply (Permutation_Forall (Permutation_sym (insert_desc_perm r l))).
        constructor; [unfold outranks; lia | exact Hall].
Qed.

Lemma sort_desc_sorted (l : list (list cell)) :
  StronglySorted outranks (sort_desc k l).
Proof.
  induction l as [|r l IH]; simpl.
  - constructor.
  - apply insert_desc_sorted. exact IH.
Qed.

Lemma skipn_In {A : Type} (n : nat) (l : list A) (x : A) :
  In x (skipn n l) -> In x l.
Proof.
  intros H. rewrite <- (firstn_skipn n l). apply in_or_app. right. exact H.
Qed.

(** In a ranked list every row among the first [n] outranks every row
    after them. *)
Lemma sorted_firstn_outranks (l : list (list cell)) :
  StronglySorted outranks l ->
  forall n a b, In a (firstn n l) -> In b (skipn n l) -> outranks a b.
Proof.
  induction 1 as [|r l Hs IH Hall]; intros n a b Ha Hb.
  - destruct n; simpl in Ha; contradiction.
  - destruct n as [|n]; simpl in Ha, Hb; [contradiction|].
    destruct Ha as [<- | Ha].
    + rewrite Forall_forall in Hall. apply Hall.
      apply (skipn_In n). exact Hb.
    + exact (IH n a b Ha Hb).
Qed.

End Ranking.

(** [nlargest] keeps rows of the table, [n] of them when the table has as
    many, ranked from the largest down; every row it leaves out has a value
    no larger than any row it keeps. *)
Lemma nlargest_spec (n : nat) (y : str) (df : DataFrame) :
  exists others,
    Permutation (rows (nlargest n y df) ++ others) (rows df)
    /\ length (rows (nlargest n y df)) = Nat.min n (len df)
    /\ StronglySorted (outranks (key df y)) (rows (nlargest n y df))
    /\ (forall kept left_out,
          In kept (rows (nlargest n y df)) -> In left_out others ->
          (key df y left_out <= key df y kept)%Z).
Proof.
  exists (skipn n (sort_desc (key df y) (rows df))).
  unfold nlargest. cbn [rows].
  split; [|split; [|split]].
  - rewrite firstn_skipn. apply sort_desc_perm.
  - rewrite length_firstn. unfold len.
    rewrite (Permutation_length (sort_desc_perm (key df y) (rows df))).
    reflexivity.
  - pose proof (sort_desc_sorted (key df y) (rows df)) as Hs.
    rewrite <- (firstn_skipn n (sort_desc (key df y) (rows df))) in Hs.
    revert Hs. generalize (firstn n (sort_desc (key df y) (rows df))).
    intros l. induction l as [|a l IH]; intros Hs; [constructor|].
    simpl in Hs. apply StronglySorted_inv in Hs. destruct Hs as [Hl Hall].
    constructor; [apply IH; exact Hl|].
    apply Forall_app in Hall. apply Hall.
  - intros kept left_out Hk Hl.
    exact (sorted_firstn_outranks (sort_desc_sorted (key df y) (rows df))
             n kept left_out Hk Hl).
Qed.

Lemma nlargest_len (n : nat) (y : str) (df : DataFrame) :
  (len (nlargest n y df) <= n)%nat.
Proof. unfold len, nlargest. cbn [rows]. rewrite length_firstn. lia. Qed.

Lemma head_len_le (n : nat) (df : DataFrame) : (len (head n df) <= n)%nat.
Proof. unfold len, head. cbn [rows]. rewrite length_firstn. lia. Qed.

End PandasFacts.

(* ================================================================== *)
(** * The chart selector and renderer *)
(* ================================================================== *)

Module ChartFacts.
Import PyStr Pandas Llm ChartGenerator Fixtures.

Lemma points_length (df : DataFrame) (x y : str) :
  length (points df x y) = len df.
Proof. unfold points, len. apply length_map. Qed.

Lemma equal_points_length (df : DataFrame) (x : str) :
  length (equal_points df x) = len df.
Proof. unfold equal_points, len. apply length_map. Qed.

Lemma equal_points_labels (df : DataFrame) (x y : str) :
  map fst (equal_points df x) = map fst (points df x y).
Proof.
  unfold equal_points, points. rewrite !map_map. reflexivity.
Qed.

Lemma sample_columns (df : DataFrame) : columns (sample df) = columns df.
Proof. unfold sample. destruct (25 <? len df)%nat; reflexivity. Qed.

Lemma sample_len (df : DataFrame) : (len (sample df) <= 25)%nat.
Proof.
  unfold sample. destruct (25 <? len df)%nat eqn:H.
  - apply PandasFacts.head_len_le.
  - apply Nat.ltb_ge in H. exact H.
Qed.

Lemma sample_is_numeric (df : DataFrame) (y : str) :
  is_numeric_dtype (sample df) y = is_numeric_dtype df y.
Proof.
  unfold is_numeric_dtype, column_dtype. rewrite sample_columns. reflexivity.
Qed.

Lemma top_data_len (df : DataFrame) (y : str) : (len (top_data df y) <= 8)%nat.
Proof.
  unfold top_data. destruct (is_numeric_dtype df y).
  - apply PandasFacts.nlargest_len.
  - apply PandasFacts.head_len_le.
Qed.

Lemma pie_is_not_bar : PyStr.eqb (lit "pie") (lit "bar") = false.
Proof. reflexivity. Qed.

Lemma pie_is_pie : PyStr.eqb (lit "pie") (lit "pie") = true.
Proof. reflexivity. Qed.

Lemma matplotlib_figure_type (df : DataFrame) (question t : str) :
  fig_type (matplotlib_figure df question t) = t.
Proof.
  unfold matplotlib_figure.
  destruct (columns df) as [|[x dx] [|[y dy] rest]]; try reflexivity.
  destruct (PyStr.eqb t (lit "bar")); [reflexivity|].
  destruct (PyStr.eqb t (lit "pie")); [|reflexivity].
  destruct (is_numeric_dtype df y); reflexivity.
Qed.

Lemma matplotlib_figure_backend (df : DataFrame) (question t : str) :
  fig_backend (matplotlib_figure df question t) = Matplotlib.
Proof.
  unfold matplotlib_figure.
  destruct (columns df) as [|[x dx] [|[y dy] rest]]; try reflexivity.
  destruct (PyStr.eqb t (lit "bar")); [reflexivity|].
  destruct (PyStr.eqb t (lit "pie")); [|reflexivity].
  destruct (is_numeric_dtype df y); reflexivity.
Qed.

(** What matplotlib draws as a pie of a table of two columns or more. *)
Lemma matplotlib_pie_points (df : DataFrame) (question x y : str)
    (dx dy : dtype) (rest : list (str * dtype)) :
  columns df = (x, dx) :: (y, dy) :: rest ->
  fig_points (matplotlib_figure df question (lit "pie"))
  = if is_numeric_dtype df y then points (nlargest 8 y df) x y
    else equal_points (head 8 df) x.
Proof.
  intros Hc. unfold matplotlib_figure. rewrite Hc.
  rewrite pie_is_not_bar, pie_is_pie.
  destruct (is_numeric_dtype df y); reflexivity.
Qed.

Lemma matplotlib_pie_cap (df : DataFrame) (question : str) :
  (length (fig_points (matplotlib_figure df question (lit "pie"))) <= 8)%nat.
Proof.
  destruct (columns df) as [|[x dx] [|[y dy] rest]] eqn:Hc.
  - unfold matplotlib_figure. rewrite Hc. simpl. lia.
  - unfold matplotlib_figure. rewrite Hc. simpl. lia.
  - rewrite (@matplotlib_pie_points df question _ _ _ _ _ Hc).
    destruct (is_numeric_dtype df y).
    + rewrite points_length. apply PandasFacts.nlargest_len.
    + rewrite equal_points_length. apply PandasFacts.head_len_le.
Qed.

Lemma plotly_figure_type (df : DataFrame) (x y question : str)
    (chart_type : option str) (fig : figure) :
  plotly_figure df x y question chart_type = Some fig ->
  chart_type = Some (fig_type fig) /\ fig_backend fig = Plotly.
Proof.
  unfold plotly_figure. destruct chart_type as [t|]; [|discriminate].
  destruct (PyStr.eqb t (lit "bar")).
  - intros H. injection H as <-. split; reflexivity.
  - destruct (PyStr.eqb t (lit "pie")); [|discriminate].
    intros H. injection H as <-. split; reflexivity.
Qed.

Lemma plotly_pie_points (df : DataFrame) (x y question : str) (fig : figure) :
  plotly_figure df x y question (Some (lit "pie")) = Some fig ->
  fig_points fig = points (top_data df y) x y.
Proof.
  unfold plotly_figure. rewrite pie_is_not_bar, pie_is_pie.
  intros H. injection H as <-. reflexivity.
Qed.

Lemma slide_override_pie (lowered path : str) (chart_type : option str) :
  contains (lit "slide 3") lowered = true \/ contains (lit "chart_3") path = true ->
  slide_override lowered path chart_type = Some (lit "pie").
Proof.
  intros H. unfold slide_override.
  destruct H as [H | H]; rewrite H; [reflexivity|].
  rewrite orb_true_r. reflexivity.
Qed.

Lemma slide_override_bar (lowered path : str) (chart_type : option str) :
  contains (lit "slide 3") lowered = false ->
  contains (lit "chart_3") path = false ->
  contains (lit "slide 4") lowered = true \/ contains (lit "chart_4") path = true ->
  slide_override lowered path chart_type = Some (lit "bar").
Proof.
  intros H3q H3p H. unfold slide_override. rewrite H3q, H3p. cbn [orb].
  destruct H as [H | H]; rewrite H; [reflexivity|].
  rewrite orb_true_r. reflexivity.
Qed.

Section WithBackends.

Variable ai : completion.
Variable lower : str -> str.
Variable PLOTLY_AVAILABLE : bool.
Variable plotly_write : figure -> str -> Py.result unit.
Variable matplotlib_save : figure -> str -> Py.result unit.

(** A figure matplotlib wrote is the one of its chart type, and that type
    is the one asked for when one was. *)
Lemma matplotlib_chart_inv (df : DataFrame) (question path : str)
    (chart_type : option str) (fig : figure) :
  create_enhanced_matplotlib_chart ai lower matplotlib_save df question path
    chart_type = Py.Ok fig ->
  fig = matplotlib_figure df question (fig_type fig)
  /\ (forall t, chart_type = Some t -> fig_type fig = t).
Proof.
  unfold create_enhanced_matplotlib_chart.
  destruct chart_type as [t|].
  - cbn [Py.bind].
    destruct (matplotlib_save (matplotlib_figure df question t) path);
      cbn [Py.bind]; [|discriminate].
    intros H. injection H as <-. rewrite matplotlib_figure_type.
    split; [reflexivity|]. intros t' Ht. congruence.
  - destruct (determine_chart_type ai lower df question) as [t|e];
      cbn [Py.bind]; [|discriminate].
    destruct (matplotlib_save (matplotlib_figure df question t) path);
      cbn [Py.bind]; [|discriminate].
    intros H. injection H as <-. rewrite matplotlib_figure_type.
    split; [reflexivity|]. intros t' Ht. discriminate.
Qed.

(** With Plotly installed, a figure that was written is the Plotly figure
    of the overridden chart type on the sample, or the matplotlib figure on
    the same sample and of the same chart type when one was fixed. *)
Lemma plotly_chart_inv (df : DataFrame) (question path : str)
    (chart_type : option str) (fig : figure) :
  PLOTLY_AVAILABLE = true ->
  create_plotly_chart ai lower PLOTLY_AVAILABLE plotly_write matplotlib_save
    df question path chart_type = Py.Ok fig ->
  exists x y df1,
    prepare df = Py.Ok (x, y, df1)
    /\ (plotly_figure (sample df1) x y question
          (slide_override (lower question) path chart_type) = Some fig
        \/ (fig = matplotlib_figure (sample df1) question (fig_type fig)
            /\ forall t,
                 slide_override (lower question) path chart_type = Some t ->
                 fig_type fig = t)).
Proof.
  intros Hp. unfold create_plotly_chart. rewrite Hp. cbn [negb].
  destruct (prepare df) as [[[x y] df1]|e]; cbn [Py.bind]; [|discriminate].
  intros Hrun. exists x, y, df1. split; [reflexivity|].
  destruct (plotly_figure (sample df1) x y question
              (slide_override (lower question) path chart_type))
    as [pfig|] eqn:Hfig.
  - destruct (plotly_write pfig path) as [u|e].
    + left. congruence.
    + right. destruct (Py.is_Exception e); [|discriminate].
      exact (matplotlib_chart_inv _ _ _ _ Hrun).
  - right. exact (matplotlib_chart_inv _ _ _ _ Hrun).
Qed.

(** With Plotly installed, a chart type the override fixes is the type of
    every figure that is written, by either backend. *)
Lemma forced_chart_type (df : DataFrame) (question path : str)
    (classified : option str) (fig : figure) (t : str) :
  PLOTLY_AVAILABLE = true ->
  create_plotly_chart ai lower PLOTLY_AVAILABLE plotly_write matplotlib_save
    df question path classified = Py.Ok fig ->
  slide_override (lower question) path classified = Some t ->
  fig_type fig = t.
Proof.
  intros Hp Hrun Ht.
  destruct (plotly_chart_inv df question path classified Hp Hrun)
    as [x [y [df1 [_ Hfig]]]].
  destruct Hfig as [Hplotly | [_ Hmpl]].
  - apply plotly_figure_type in Hplotly. destruct Hplotly as [Hct _].
    congruence.
  - exact (Hmpl t Ht).
Qed.

(** A chart is rendered whenever the table has a column, the override
    fixes the chart type and Plotly writes its figure. *)
Lemma overridden_chart_is_rendered (df : DataFrame) (question path : str)
    (classified : option str) :
  PLOTLY_AVAILABLE = true ->
  columns df <> [] ->
  (forall fig, plotly_write fig path = Py.Ok tt) ->
  contains (lit "slide 3") (lower question) = true
  \/ contains (lit "chart_3") path = true
  \/ contains (lit "slide 4") (lower question) = true
  \/ contains (lit "chart_4") path = true ->
  exists fig,
    create_plotly_chart ai lower PLOTLY_AVAILABLE plotly_write matplotlib_save
      df question path classified = Py.Ok fig
    /\ fig_backend fig = Plotly.
Proof.
  intros Hp Hcols Hwrite Hrule. unfold create_plotly_chart.
  rewrite Hp. cbn [negb].
  assert (Hprep : exists x y df1, prepare df = Py.Ok (x, y, df1)).
  { unfold prepare. destruct (columns df) as [|[x dx] [|[y dy] rest]].
    - congruence.
    - do 3 eexists. reflexivity.
    - do 3 eexists. reflexivity. }
  destruct Hprep as [x [y [df1 Hprep]]]. rewrite Hprep. cbn [Py.bind].
  assert (Hforced : slide_override (lower question) path classified
                    = Some (lit "pie")
                    \/ slide_override (lower question) path classified
                       = Some (lit "bar")).
  { unfold slide_override.
    destruct (contains (lit "slide 3") (lower question)); [left; reflexivity|].
    destruct (contains (lit "chart_3") path); [left; reflexivity|].
    cbn [orb].
    destruct Hrule as [H | [H | [H | H]]]; try discriminate H;
      rewrite H; [|rewrite orb_true_r]; right; reflexivity. }
  destruct Hforced as [Ht | Ht]; rewrite Ht; unfold plotly_figure.
  - rewrite pie_is_not_bar, pie_is_pie. rewrite Hwrite.
    eexists. split; reflexivity.
  - rewrite PyStrFacts.eqb_refl. rewrite Hwrite.
    eexists. split; reflexivity.
Qed.

(** C4, as the code has it.  With the primary backend installed, a chart
    that is rendered for a question containing "slide 3" (in lower case) or
    a path containing "chart_3" is a pie, and one for a question containing
    "slide 4" or a path containing "chart_4", slide 3 and chart_3 being
    absent, is a bar, in the primary backend and in the fallback after it,
    whatever chart type the classifier gave. *)
Theorem slide_override_wins (df : DataFrame) (question path : str)
    (classified : option str) (fig : figure) :
  PLOTLY_AVAILABLE = true ->
  create_plotly_chart ai lower PLOTLY_AVAILABLE plotly_write matplotlib_save
    df question path classified = Py.Ok fig ->
  (contains (lit "slide 3") (lower question) = true
   \/ contains (lit "chart_3") path = true ->
   fig_type fig = lit "pie")
  /\ (contains (lit "slide 3") (lower question) = false ->
      contains (lit "chart_3") path = false ->
      contains (lit "slide 4") (lower question) = true
      \/ contains (lit "chart_4") path = true ->
      fig_type fig = lit "bar").
Proof.
  intros Hp Hrun. split.
  - intros H3.
    apply (forced_chart_type df question path classified Hp Hrun).
    apply slide_override_pie. exact H3.
  - intros H3q H3p H4.
    apply (forced_chart_type df question path classified Hp Hrun).
    apply slide_override_bar; assumption.
Qed.

(** The same for [generate_chart], where the chart type is the one the
    classifier returned. *)
Lemma generate_chart_override (df : DataFrame) (question path : str)
    (fig : figure) :
  PLOTLY_AVAILABLE = true ->
  generate_chart ai lower PLOTLY_AVAILABLE plotly_write matplotlib_save
    df question path = Py.Ok fig ->
  (contains (lit "slide 3") (lower question) = true
   \/ contains (lit "chart_3") path = true ->
   fig_type fig = lit "pie")
  /\ (contains (lit "slide 3") (lower question) = false ->
      contains (lit "chart_3") path = false ->
      contains (lit "slide 4") (lower question) = true
      \/ contains (lit "chart_4") path = true ->
      fig_type fig = lit "bar").
Proof.
  intros Hp. unfold generate_chart.
  destruct (determine_chart_type ai lower df question) as [t|e];
    cbn [Py.bind]; [|discriminate].
  intros Hrun. split.
  - intros H3.
    apply (forced_chart_type df question path (Some t) Hp Hrun).
    apply slide_override_pie. exact H3.
  - intros H3q H3p H4.
    apply (forced_chart_type df question path (Some t) Hp Hrun).
    apply slide_override_bar; assumption.
Qed.

(** C5, as the code has it.  A rendered pie has at most 8 categories, for
    every table and in either backend.  For a table of two columns or more
    they are taken from the rows the backend is handed ([received]): when
    the second column is numeric, its [nlargest 8] rows by that column (see
    [PandasFacts.nlargest_spec]), labelled by the first column and weighted
    by the second; otherwise its first 8 rows, labelled by the first
    column, which matplotlib draws with equal weights. *)
Theorem pie_chart_categories (df : DataFrame) (question path : str)
    (classified : option str) (fig : figure) :
  create_plotly_chart ai lower PLOTLY_AVAILABLE plotly_write matplotlib_save
    df question path classified = Py.Ok fig ->
  fig_type fig = lit "pie" ->
  (length (fig_points fig) <= 8)%nat
  /\ (forall x dx y dy rest,
        columns df = (x, dx) :: (y, dy) :: rest ->
        (is_numeric_dtype df y = true ->
         fig_points fig = points (nlargest 8 y (received PLOTLY_AVAILABLE df)) x y)
        /\ (is_numeric_dtype df y = false ->
            map fst (fig_points fig) = map fst (points (head 8 (received PLOTLY_AVAILABLE df)) x y)
            /\ (fig_backend fig = Matplotlib ->
                fig_points fig = equal_points (head 8 (received PLOTLY_AVAILABLE df)) x))).
Proof.
  intros Hrun Hpie. unfold received.
  destruct (sumbool_of_bool PLOTLY_AVAILABLE) as [Hp | Hp]; rewrite Hp.
  - destruct (plotly_chart_inv df question path classified Hp Hrun)
      as [x0 [y0 [df1 [Hprep Hfig]]]].
    destruct Hfig as [Hplotly | [Hmpl _]].
    + destruct (@plotly_figure_type _ _ _ _ _ _ Hplotly) as [Hct Hbackend].
      rewrite Hct, Hpie in Hplotly.
      pose proof (@plotly_pie_points _ _ _ _ _ Hplotly) as Hpts.
      split.
      * rewrite Hpts, points_length. apply top_data_len.
      * intros x dx y dy rest Hc. unfold prepare in Hprep. rewrite Hc in Hprep.
        injection Hprep as Hx Hy Hdf. subst x0 y0 df1.
        unfold top_data in Hpts. rewrite sample_is_numeric in Hpts.
        split.
        -- intros Hnum. rewrite Hnum in Hpts. exact Hpts.
        -- intros Hnum. rewrite Hnum in Hpts. rewrite Hpts.
           split; [reflexivity|]. rewrite Hbackend. discriminate.
    + rewrite Hpie in Hmpl. split.
      * rewrite Hmpl. apply matplotlib_pie_cap.
      * intros x dx y dy rest Hc. unfold prepare in Hprep. rewrite Hc in Hprep.
        injection Hprep as Hx Hy Hdf. subst x0 y0 df1.
        assert (Hcs : columns (sample df) = (x, dx) :: (y, dy) :: rest)
          by (rewrite sample_columns; exact Hc).
        pose proof (@matplotlib_pie_points (sample df) question _ _ _ _ _ Hcs) as Hpts.
        rewrite <- Hmpl, sample_is_numeric in Hpts.
        split.
        -- intros Hnum. rewrite Hnum in Hpts. exact Hpts.
        -- intros Hnum. rewrite Hnum in Hpts. rewrite Hpts.
           split; [apply equal_points_labels | reflexivity].
  - unfold create_plotly_chart in Hrun. rewrite Hp in Hrun. cbn [negb] in Hrun.
    destruct (matplotlib_chart_inv _ _ _ _ Hrun) as [Hmpl _].
    rewrite Hpie in Hmpl. split.
    + rewrite Hmpl. apply matplotlib_pie_cap.
    + intros x dx y dy rest Hc.
      pose proof (@matplotlib_pie_points df question _ _ _ _ _ Hc) as Hpts.
      rewrite <- Hmpl in Hpts.
      split.
      * intros Hnum. rewrite Hnum in Hpts. exact Hpts.
      * intros Hnum. rewrite Hnum in Hpts. rewrite Hpts.
        split; [apply equal_points_labels | reflexivity].
Qed.

(** With Plotly installed no chart has more than 25 points. *)
Lemma sampled_chart_points (df : DataFrame) (question path : str)
    (classified : option str) (fig : figure) :
  PLOTLY_AVAILABLE = true ->
  create_plotly_chart ai lower PLOTLY_AVAILABLE plotly_write matplotlib_save
    df question path classified = Py.Ok fig ->
  (length (fig_points fig) <= 25)%nat.
Proof.
  intros Hp Hrun.
  destruct (plotly_chart_inv df question path classified Hp Hrun)
    as [x [y [df1 [_ Hfig]]]].
  pose proof (sample_len df1) as Hlen.
  destruct Hfig as [Hplotly | [Hmpl _]].
  - unfold plotly_figure in Hplotly.
    destruct (slide_override (lower question) path classified) as [t|];
      [|discriminate].
    destruct (PyStr.eqb t (lit "bar")).
    + injection Hplotly as <-. cbn [fig_points]. rewrite points_length. exact Hlen.
    + destruct (PyStr.eqb t (lit "pie")); [|discriminate].
      injection Hplotly as <-. cbn [fig_points]. rewrite points_length.
      pose proof (top_data_len (sample df1) y). lia.
  - rewrite Hmpl. unfold matplotlib_figure.
    destruct (columns (sample df1)) as [|[x' dx] [|[y' dy] rest]];
      try (simpl; lia).
    destruct (PyStr.eqb (fig_type fig) (lit "bar")).
    + cbn [fig_points]. rewrite points_length. exact Hlen.
    + destruct (PyStr.eqb (fig_type fig) (lit "pie")); [|simpl; lia].
      destruct (is_numeric_dtype (sample df1) y'); cbn [fig_points].
      * rewrite points_length.
        pose proof (PandasFacts.nlargest_len 8 y' (sample df1)). lia.
      * rewrite equal_points_length.
        pose proof (PandasFacts.head_len_le 8 (sample df1)). lia.
Qed.

End WithBackends.

(** The theorem at the chart of slide 3, which the classifier called a
    bar chart. *)
Lemma slide_override_wins_witness :
  rendered_type
    (create_plotly_chart (answering (lit "bar")) ascii_lower true
       written written sales_table
       (lit "Which region sells the most? - Primary Data Insights")
       (lit "charts/chart_3.png") (Some (lit "bar")))
  = Some (lit "pie").
Proof.
  destruct (create_plotly_chart (answering (lit "bar"))
              ascii_lower true written written sales_table
              (lit "Which region sells the most? - Primary Data Insights")
              (lit "charts/chart_3.png") (Some (lit "bar")))
    as [fig|e] eqn:Hrun; [|vm_compute in Hrun; discriminate Hrun].
  cbn [rendered_type]. f_equal.
  apply (@slide_override_wins _ _ true _ _ _ _ _ _ fig eq_refl Hrun).
  right. vm_compute. reflexivity.
Defined.

(** C4 as stated fails when both rules match: the chart of slide 4, for a
    question that mentions slide 3, is a pie and not a bar. *)
Lemma slide_3_rule_comes_first :
  contains (lit "chart_4") (lit "charts/chart_4.png") = true
  /\ rendered_type
       (generate_chart (answering (lit "bar")) ascii_lower true
          written written sales_table
          (lit "What changed since slide 3 of the review? - Detailed Analysis Results")
          (lit "charts/chart_4.png"))
     = Some (lit "pie")
  /\ lit "pie" <> lit "bar".
Proof.
  split; [reflexivity|]. split; [vm_compute; reflexivity | discriminate].
Qed.

(** The theorem at the chart of slide 3 of the two-row table. *)
Lemma pie_chart_categories_witness :
  (length
     (rendered_points
        (create_plotly_chart (answering (lit "bar")) ascii_lower
           true written written sales_table
           (lit "Which region sells the most? - Primary Data Insights")
           (lit "charts/chart_3.png") (Some (lit "bar")))) <= 8)%nat.
Proof.
  destruct (create_plotly_chart (answering (lit "bar"))
              ascii_lower true written written sales_table
              (lit "Which region sells the most? - Primary Data Insights")
              (lit "charts/chart_3.png") (Some (lit "bar")))
    as [fig|e] eqn:Hrun; [|simpl; lia].
  cbn [rendered_points].
  apply (@pie_chart_categories _ _ true _ _ _ _ _ _ fig Hrun).
  vm_compute in Hrun. injection Hrun as <-. reflexivity.
Defined.

(** C5 as stated fails on a table of one column: there is no second
    column, yet the pie of the primary backend is not made of the first 8
    rows with equal weights.  The rows are ranked by the only column, the 8
    largest are kept, and their row numbers are the labels. *)
Lemma pie_of_a_single_column :
  columns one_column_table = [(lit "Sales", Numeric)]
  /\ rendered_points
       (create_plotly_chart (answering (lit "pie")) ascii_lower true written
          written one_column_table
          (lit "Which region sells the most? - Primary Data Insights")
          (lit "charts/chart_3.png") (Some (lit "pie")))
     = [(CNum 9, CNum 10); (CNum 2, CNum 9); (CNum 3, CNum 8); (CNum 4, CNum 7);
        (CNum 5, CNum 6); (CNum 0, CNum 5); (CNum 6, CNum 4); (CNum 7, CNum 3)]
  /\ firstn 8 (rows one_column_table)
     = map (fun z => [CNum z]) [5; 1; 9; 8; 7; 6; 4; 3]%Z.
Proof. repeat split; vm_compute; reflexivity. Qed.

(** On a table of more than 25 rows the pie of the primary backend holds
    the 8 largest of the first 25 rows, sales 25 down to 18; the 8 largest
    rows of the whole table are 26 down to 19. *)
Example pie_of_the_sample :
  map snd
    (rendered_points
       (create_plotly_chart (answering (lit "pie")) ascii_lower
          true written written long_table
          (lit "Which region sells the most? - Primary Data Insights")
          (lit "charts/chart_3.png") (Some (lit "pie"))))
  = map CNum [25; 24; 23; 22; 21; 20; 19; 18]%Z
  /\ map snd (points (nlargest 8 (lit "Sales") long_table)
                (lit "Region") (lit "Sales"))
     = map CNum [26; 25; 24; 23; 22; 21; 20; 19]%Z.
Proof. split; vm_compute; reflexivity. Qed.

(** C6 at its failing input: without Plotly the bar chart of the 26-row
    table has 26 bars, drawn by matplotlib from the whole table. *)
Theorem unsampled_chart_without_plotly :
  len long_table = 26%nat
  /\ rendered_type
       (generate_chart (answering (lit "bar")) ascii_lower false
          written written long_table
          (lit "Which region sells the most? - Detailed Analysis Results")
          (lit "charts/chart_4.png"))
     = Some (lit "bar")
  /\ length
       (rendered_points
          (generate_chart (answering (lit "bar")) ascii_lower
             false written written long_table
             (lit "Which region sells the most? - Detailed Analysis Results")
             (lit "charts/chart_4.png")))
     = 26%nat.
Proof. repeat split; vm_compute; reflexivity. Qed.

(** The sibling call of line 121: with Plotly installed and failing, the
    same chart is drawn by matplotlib from the first 25 rows. *)
Example sampled_chart_after_plotly_failure :
  length
    (rendered_points
       (generate_chart (answering (lit "bar")) ascii_lower true
          refused written long_table
          (lit "Which region sells the most? - Detailed Analysis Results")
          (lit "charts/chart_4.png")))
  = 25%nat.
Proof. vm_compute. reflexivity. Qed.

(** The primary backend is given the second column as the wedge values
    also when it is not numeric; only matplotlib replaces them by 1. *)
Example pie_weights_of_a_text_column :
  let notes :=
    mkDataFrame [(lit "Region", Object); (lit "Note", Object)]
      [[CStr (lit "North"); CStr (lit "up")];
       [CStr (lit "South"); CStr (lit "down")]] in
  rendered_points
    (create_plotly_chart (answering (lit "pie")) ascii_lower true
       written written notes (lit "Notes") (lit "charts/chart_3.png") None)
  = [(CStr (lit "North"), CStr (lit "up")); (CStr (lit "South"), CStr (lit "down"))]
  /\ rendered_points
       (create_plotly_chart (answering (lit "pie")) ascii_lower true
          refused written notes (lit "Notes") (lit "charts/chart_3.png") None)
     = [(CStr (lit "North"), CNum 1); (CStr (lit "South"), CNum 1)].
Proof. split; vm_compute; reflexivity. Qed.

End ChartFacts.

(* ================================================================== *)
(** * Layout arithmetic, chart slides and templates *)
(* ================================================================== *)

Module LayoutFacts.
Import PyStr PyVal Layout Fixtures.

Local Open Scope float_scope.

(** The conversion reads nothing of the template but the two slide
    dimensions: two templates whose dimensions are 10 by 7.5 convert every
    percentage of either dimension type to the same length, which is
    [Inches(p / 100 * 10)] for ['width'] and [Inches(p / 100 * 7.5)] for
    ['height'], in the arithmetic of doubles the code computes in. *)
Theorem percent_to_inches_pure (t1 t2 : PPTTemplate) (p : float)
    (dimension_type : str) :
  SLIDE_WIDTH (config t1) = 10 -> SLIDE_HEIGHT (config t1) = 7.5 ->
  SLIDE_WIDTH (config t2) = 10 -> SLIDE_HEIGHT (config t2) = 7.5 ->
  percent_to_inches t1 p dimension_type = percent_to_inches t2 p dimension_type
  /\ percent_to_inches t1 p (lit "width") = Inches ((p / 100) * 10)
  /\ percent_to_inches t1 p (lit "height") = Inches ((p / 100) * 7.5).
Proof.
  intros Hw1 Hh1 Hw2 Hh2. unfold percent_to_inches.
  rewrite Hw1, Hh1, Hw2, Hh2.
  split; [reflexivity|]. split; reflexivity.
Qed.

(** The theorem at the default template and another one, for 24 percent of
    the height. *)
Lemma percent_to_inches_pure_witness :
  percent_to_inches new_template 24 (lit "height")
  = percent_to_inches wide_chart_template 24 (lit "height")
  /\ percent_to_inches new_template 24 (lit "width") = Inches ((24 / 100) * 10)
  /\ percent_to_inches new_template 24 (lit "height") = Inches ((24 / 100) * 7.5).
Proof.
  apply (percent_to_inches_pure new_template wide_chart_template 24
           (lit "height")); reflexivity.
Defined.

Section WithFiles.

Variable path_exists : str -> bool.
Variable read_image : str -> Py.result unit.

(** The chart slide of the default template, by the file system. *)
Lemma create_chart_slide_cases (prs : Presentation)
    (title_text chart_path : str) (bullet_points : list str) :
  (5 < slide_layouts prs)%nat ->
  create_chart_slide path_exists read_image new_template prs title_text
    chart_path bullet_points
  = if path_exists chart_path then
      match read_image chart_path with
      | Py.Ok _ =>
          let s := [chart_title_box title_text; chart_picture chart_path;
                    chart_text_box bullet_points] in
          Py.Ok (mkPresentation (slide_layouts prs) (slides prs ++ [s]), s)
      | Py.Raise e => Py.Raise e
      end
    else
      let s := [chart_title_box title_text; chart_text_box bullet_points] in
      Py.Ok (mkPresentation (slide_layouts prs) (slides prs ++ [s]), s).
Proof.
  intros Hl. apply Nat.ltb_lt in Hl. unfold create_chart_slide.
  rewrite Hl. cbn [Py.bind].
  change (place new_template (title_geometry (CHART_SLIDE_title (config new_template))))
    with (Py.Ok (mkBox 457200 685800 8229600 822959)).
  cbn [Py.bind].
  destruct (path_exists chart_path).
  - change (percent_to_inches new_template
              (left_percent (picture_geometry (CHART_SLIDE_chart (config new_template))))
              (lit "width")) with (Py.Ok 6400800%Z).
    change (percent_to_inches new_template
              (top_percent (picture_geometry (CHART_SLIDE_chart (config new_template))))
              (lit "height")) with (Py.Ok 1645919%Z).
    change (percent_to_inches new_template
              (width_percent (picture_geometry (CHART_SLIDE_chart (config new_template))))
              (lit "width")) with (Py.Ok 4114800%Z).
    change (percent_to_inches new_template
              (height_percent (picture_geometry (CHART_SLIDE_chart (config new_template))))
              (lit "height")) with (Py.Ok 4114800%Z).
    cbn [Py.bind].
    destruct (read_image chart_path) as [u|e]; cbn [Py.bind]; [|reflexivity].
    change (place new_template (text_geometry (CHART_SLIDE_text (config new_template))))
      with (Py.Ok (mkBox 457200 1645919 3657600 4114800)).
    change (percent_to_inches new_template
              (margin_left_percent (CHART_SLIDE_text (config new_template)))
              (lit "width")) with (Py.Ok 182880%Z).
    change (percent_to_inches new_template
              (margin_right_percent (CHART_SLIDE_text (config new_template)))
              (lit "width")) with (Py.Ok 182880%Z).
    reflexivity.
  - cbn [Py.bind].
    change (place new_template (text_geometry (CHART_SLIDE_text (config new_template))))
      with (Py.Ok (mkBox 457200 1645919 3657600 4114800)).
    change (percent_to_inches new_template
              (margin_left_percent (CHART_SLIDE_text (config new_template)))
              (lit "width")) with (Py.Ok 182880%Z).
    change (percent_to_inches new_template
              (margin_right_percent (CHART_SLIDE_text (config new_template)))
              (lit "width")) with (Py.Ok 182880%Z).
    reflexivity.
Qed.


End WithFiles.



Section WithTemplates.

Variable lower : str -> str.
Variable makedirs : str -> Py.result unit.
Variable glob_pptx : str -> list str.
Variable open_presentation : str -> Py.result Presentation.
Variable drop_slide : Presentation -> nat -> Py.result Presentation.

(** C8.  Once the template directory has been scanned, a name that, in
    lower case as it is looked up, is not among the scanned names, or is
    there with no file, or whose file raises an exception of class
    [Exception] while it is opened and emptied, gets the built-in blank
    presentation, and no error. *)
Theorem load_pptx_template_default (template_name templates_folder : str)
    (available : dict) :
  scan_pptx_templates lower makedirs glob_pptx templates_folder
  = Py.Ok available ->
  dict_get available (lower template_name) = None
  \/ (exists v, dict_get available (lower template_name) = Some v
                /\ truthy v = false)
  \/ (exists path e,
        dict_get available (lower template_name) = Some (VStr path)
        /\ (prs <- open_presentation path ;;
            drop_slides drop_slide (length (slides prs)) prs) = Py.Raise e
        /\ Py.is_Exception e = true) ->
  load_pptx_template lower makedirs glob_pptx open_presentation drop_slide
    template_name templates_folder
  = Py.Ok default_presentation.
Proof.
  intros Hscan Hcase. unfold load_pptx_template. rewrite Hscan. cbn [Py.bind].
  destruct Hcase as [Hnone | [[v [Hv Hfalse]] | [path [e [Hv [Hload He]]]]]].
  - rewrite Hnone. reflexivity.
  - rewrite Hv. destruct v as [| | | | [|c s] | |]; try reflexivity.
    discriminate Hfalse.
  - rewrite Hv. destruct path as [|c path]; [reflexivity|].
    rewrite Hload, He. reflexivity.
Qed.

End WithTemplates.

Example scan_one_template :
  scan_pptx_templates ascii_lower created one_template (lit "templates")
  = Py.Ok [(lit "modern_blue_2024", VStr (lit "templates/Modern Blue-2024.pptx"))].
Proof. vm_compute. reflexivity. Qed.

Example scan_empty_folder :
  scan_pptx_templates ascii_lower created (fun _ => []) (lit "templates")
  = Py.Ok [(lit "default", VNone)].
Proof. vm_compute. reflexivity. Qed.

(** The theorem at a name that was not scanned. *)
Lemma load_pptx_template_default_witness :
  load_pptx_template ascii_lower created one_template corrupt dropped
    (lit "Corporate_Green") (lit "templates")
  = Py.Ok default_presentation.
Proof.
  apply (load_pptx_template_default ascii_lower created one_template corrupt
           dropped (lit "Corporate_Green") (lit "templates")
           (available := [(lit "modern_blue_2024",
                           VStr (lit "templates/Modern Blue-2024.pptx"))])).
  - vm_compute. reflexivity.
  - left. vm_compute. reflexivity.
Defined.

(** A scanned name whose file cannot be opened gets the blank presentation
    too. *)
Example load_corrupt_template :
  load_pptx_template ascii_lower created one_template corrupt dropped
    (lit "MODERN_BLUE_2024") (lit "templates")
  = Py.Ok default_presentation.
Proof. vm_compute. reflexivity. Qed.

End LayoutFacts.

(* ================================================================== *)
(** * Further properties: skeleton, enhancer, executor *)
(* ================================================================== *)

Module PipelineFacts.
Import PyStr PyVal Llm Pandas PptGenerator CsvProcessor Fixtures.

Section WithCollaborators.

Variable ai : completion.
Variable json_loads : str -> Py.result value.

(** [create_ppt_skeleton] raises exactly when the LLM call does, and then
    with the same exception: neither the clean-up of lines 351-359 nor the
    decoder can make it fail. *)
Theorem create_ppt_skeleton_raises_only_with_ai (ar : analysis_result)
    (template_name : str) :
  match ai (SkeletonPrompt (original_question ar) (slice_to (summary ar) 400)
              template_name) with
  | Py.Ok _ =>
      exists skeleton,
        create_ppt_skeleton ai json_loads ar template_name = Py.Ok skeleton
  | Py.Raise e =>
      create_ppt_skeleton ai json_loads ar template_name = Py.Raise e
  end.
Proof.
  unfold create_ppt_skeleton.
  destruct (ai _) as [text|e]; cbn [Py.bind]; [|reflexivity].
  destruct (SkeletonFacts.extract_json_returns (strip text)) as [payload Hp].
  rewrite Hp. cbn [Py.bind].
  destruct (json_loads payload); eexists; reflexivity.
Qed.

(** The enhancer touches the ["content"] entry only: every other key of the
    slide reads as before, and a slide that had a ["content"] entry keeps
    its keys in their order. *)
Theorem enhance_slide_content_frame (slide slide' : dict)
    (ar : analysis_result) :
  enhance_slide_content ai slide ar = Py.Ok slide' ->
  (forall k, PyStr.eqb (lit "content") k = false ->
             dict_get slide' k = dict_get slide k)
  /\ (dict_get slide (lit "content") <> None ->
      map fst slide' = map fst slide).
Proof.
  unfold enhance_slide_content.
  destruct (enhance_prompt slide ar) as [p|e]; cbn [Py.bind]; [|discriminate].
  destruct (ai p) as [text|e]; cbn [Py.bind]; [|discriminate].
  intros Hrun.
  assert (Hset : exists content,
             slide' = dict_set slide (lit "content") content).
  { destruct (enhanced_points text) as [|q qs].
    - destruct (py_slice_to (outline_of slide) 4) as [c|e];
        cbn [Py.bind] in Hrun; [|discriminate].
      exists c. congruence.
    - cbn [Py.bind] in Hrun. eexists. injection Hrun as <-. reflexivity. }
  destruct Hset as [content ->]. split.
  - intros k Hk. apply PyValFacts.dict_get_set_other. exact Hk.
  - clear Hrun. generalize (lit "content"). intros key.
    induction slide as [|[k0 v0] d IH]; intros Hin; simpl in *.
    + congruence.
    + destruct (PyStr.eqb k0 key); simpl; [reflexivity|].
      f_equal. apply IH. exact Hin.
Qed.

End WithCollaborators.

Section WithEval.

Variable py_eval : DataFrame -> str -> DataFrame * Py.result evaluated.


(** A frame that the evaluation answers is returned as it is, and the
    frame a series converts to is returned too: only a failure brings the
    sample in. *)
Theorem execute_pandas_query_success (df df' table : DataFrame)
    (query : str) (v : evaluated) :
  py_eval df (strip (strip_fences query)) = (df', Py.Ok v) ->
  to_table v = Py.Ok table ->
  execute_pandas_query py_eval df query = (df', Py.Ok table).
Proof.
  intros Heval Htable. unfold execute_pandas_query.
  rewrite Heval. cbn [Py.bind]. rewrite Htable. reflexivity.
Qed.

End WithEval.

(** The enhancer's frame property at the slide of one bullet. *)
Lemma enhance_slide_content_frame_witness :
  exists slide',
    enhance_slide_content (answering two_lines) one_bullet_slide sales_analysis
    = Py.Ok slide'
    /\ dict_get slide' (lit "title") = Some (VStr (lit "Primary Data Insights"))
    /\ map fst slide' = map fst one_bullet_slide.
Proof.
  destruct (enhance_slide_content (answering two_lines) one_bullet_slide
              sales_analysis) as [slide'|e] eqn:Hrun;
    [|vm_compute in Hrun; discriminate Hrun].
  exists slide'. split; [reflexivity|].
  destruct (@enhance_slide_content_frame (answering two_lines)
              one_bullet_slide slide' sales_analysis Hrun) as [Hother Hkeys].
  split.
  - rewrite Hother by reflexivity. reflexivity.
  - apply Hkeys. vm_compute. discriminate.
Defined.



(** An evaluator that answers the frame it is given. *)
Definition eval_identity (df : DataFrame) (query : str)
    : DataFrame * Py.result evaluated :=
  (df, Py.Ok (AFrame df)).

Lemma execute_pandas_query_success_witness :
  execute_pandas_query eval_identity sales_table (lit "df")
  = (sales_table, Py.Ok sales_table).
Proof.
  apply (@execute_pandas_query_success eval_identity sales_table sales_table
           sales_table (lit "df") (AFrame sales_table)); reflexivity.
Defined.

End PipelineFacts.

(* ================================================================== *)
(** * Further properties: what the line clean-up guarantees *)
(* ================================================================== *)

Module CleanupFacts.
Import PyStr PyVal Llm PptGenerator Fixtures.

Lemma dropWhile_head (p : codepoint -> bool) (s : str) (c : codepoint)
    (r : str) :
  dropWhile p s = c :: r -> p c = false.
Proof.
  induction s as [|a s IH]; simpl; [discriminate|].
  destruct (p a) eqn:Ha; [exact IH|].
  intros H. injection H as <- _. exact Ha.
Qed.

Lemma dropWhile_suffix (p : codepoint -> bool) (s : str) :
  exists dropped, s = dropped ++ dropWhile p s.
Proof.
  induction s as [|a s [d Hd]]; simpl.
  - exists []. reflexivity.
  - destruct (p a).
    + exists (a :: d). simpl. f_equal. exact Hd.
    + exists []. reflexivity.
Qed.

(** [rstrip] keeps a prefix of the text, and what it keeps does not end
    with a blank. *)
Lemma rstrip_prefix (s : str) : exists dropped, s = rstrip s ++ dropped.
Proof.
  unfold rstrip. destruct (dropWhile_suffix isspace (rev s)) as [d Hd].
  exists (rev d). rewrite <- rev_app_distr, <- Hd, rev_involutive. reflexivity.
Qed.

Lemma rstrip_last (s : str) (c : codepoint) (r : str) :
  rev (rstrip s) = c :: r -> isspace c = false.
Proof.
  unfold rstrip. rewrite rev_involutive. apply dropWhile_head.
Qed.

Lemma lstrip_id (s : str) (c : codepoint) (r : str) :
  s = c :: r -> isspace c = false -> lstrip s = s.
Proof. intros -> Hc. unfold lstrip. simpl. rewrite Hc. reflexivity. Qed.

Lemma bullet_class_blank (c : codepoint) :
  bullet_class c = false -> isspace c = false.
Proof.
  unfold bullet_class. intros H. apply orb_false_iff in H. apply H.
Qed.

(** A cleaned line that is not empty begins outside the class of bullet
    glyphs, digits, signs and blanks, and does not end with a blank. *)
Lemma clean_line_ends (line : str) (c : codepoint) (r : str) :
  clean_line line = c :: r ->
  bullet_class c = false
  /\ exists last rest, rev (clean_line line) = last :: rest
                       /\ isspace last = false.
Proof.
  unfold clean_line, strip.
  destruct (dropWhile bullet_class (rstrip (lstrip line))) as [|a d] eqn:Hd.
  - discriminate.
  - pose proof (dropWhile_head _ _ Hd) as Ha.
    rewrite (lstrip_id (s := a :: d) eq_refl (bullet_class_blank _ Ha)).
    intros Hclean. split.
    + destruct (rstrip_prefix (a :: d)) as [dropped Hpre].
      rewrite Hclean in Hpre. simpl in Hpre. injection Hpre as <- _. exact Ha.
    + destruct (rev (rstrip (a :: d))) as [|l rest] eqn:Hrev.
      * apply (f_equal (@rev _)) in Hrev. rewrite rev_involutive in Hrev.
        rewrite Hrev in Hclean. discriminate.
      * exists l, rest. split; [reflexivity|].
        exact (rstrip_last _ Hrev).
Qed.

(** Every line the enhancer keeps has more than 10 characters, begins with
    a character that is no bullet glyph, digit, sign or blank, and ends with
    a character that is no blank. *)
Theorem enhanced_points_are_clean (text point : str) :
  In point (enhanced_points text) ->
  (10 < length point)%nat
  /\ (exists c r, point = c :: r /\ bullet_class c = false)
  /\ (exists last rest, rev point = last :: rest /\ isspace last = false).
Proof.
  unfold enhanced_points. intros Hin.
  apply filter_In in Hin. destruct Hin as [Hmap Husable].
  apply in_map_iff in Hmap. destruct Hmap as [line [<- _]].
  unfold usable in Husable.
  destruct (clean_line line) as [|c r] eqn:Hclean; [discriminate|].
  apply Nat.ltb_lt in Husable.
  rewrite <- Hclean in *.
  destruct (clean_line_ends line Hclean) as [Hc Hlast].
  split; [exact Husable|]. split; [|exact Hlast].
  exists c, r. split; [exact Hclean | exact Hc].
Qed.

Lemma enhanced_points_are_clean_witness :
  (10 < length (lit "Margins widened in every region this year"))%nat
  /\ (exists c r, lit "Margins widened in every region this year" = c :: r
                  /\ bullet_class c = false)
  /\ (exists last rest,
        rev (lit "Margins widened in every region this year") = last :: rest
        /\ isspace last = false).
Proof.
  apply (enhanced_points_are_clean two_lines
           (lit "Margins widened in every region this year")).
  vm_compute. right. left. reflexivity.
Defined.

End CleanupFacts.

(* ================================================================== *)
(** * Further properties: the fences of a query *)
(* ================================================================== *)

Module FenceFacts.
Import PyStr PptGenerator CsvProcessor.

Lemma skip_then_strip (s : str) :
  forall k, strip_fences_aux k s = strip_fences_aux 0 (skipn k s).
Proof.
  induction s as [|c r IH]; intros k.
  - destruct k; reflexivity.
  - destruct k as [|k]; [reflexivity|].
    cbn [strip_fences_aux skipn]. apply IH.
Qed.

Lemma find_from_shift (sep s : str) :
  forall i j, (0 <= i)%Z -> (0 <= j)%Z ->
    (find_from sep s i =? -1)%Z = (find_from sep s j =? -1)%Z.
Proof.
  induction s as [|c r IH]; intros i j Hi Hj; cbn [find_from].
  - destruct (startswith sep []); [|reflexivity].
    destruct (Z.eqb_spec i (-1)); [lia|]. destruct (Z.eqb_spec j (-1)); [lia|].
    reflexivity.
  - destruct (startswith sep (c :: r)).
    + destruct (Z.eqb_spec i (-1)); [lia|]. destruct (Z.eqb_spec j (-1)); [lia|].
      reflexivity.
    + apply IH; lia.
Qed.

Lemma contains_cons (sep : str) (c : codepoint) (s : str) :
  contains sep (c :: s) = startswith sep (c :: s) || contains sep s.
Proof.
  unfold contains, find. cbn [find_from].
  destruct (startswith sep (c :: s)); [reflexivity|].
  cbn [orb]. f_equal. apply find_from_shift; lia.
Qed.

Lemma contains_nil : contains fence [] = false.
Proof. reflexivity. Qed.

Lemma strip_keeps_head (d : codepoint) (r : str) :
  startswith fence (d :: r) = false ->
  strip_fences_aux 0 (d :: r) = d :: strip_fences_aux 0 r.
Proof.
  intros H. cbn [strip_fences_aux].
  change (lit "```") with fence. rewrite H. reflexivity.
Qed.

(** The character is a backtick. *)
Definition tick (c : codepoint) : bool := cp_eqb 96%N c.

Lemma startswith_fence (s : str) :
  startswith fence s
  = match s with
    | a :: b :: c :: _ => tick a && tick b && tick c
    | _ => false
    end.
Proof.
  change fence with [96%N; 96%N; 96%N]. unfold tick.
  destruct s as [|a [|b [|c r]]]; cbn [startswith].
  - reflexivity.
  - rewrite andb_false_r. reflexivity.
  - rewrite !andb_false_r. reflexivity.
  - rewrite andb_true_r, andb_assoc. reflexivity.
Qed.

(** The output for a text that does not begin with a backtick does not
    begin with one either. *)
Lemma strip_head_no_tick (s : str) :
  match s with
  | [] => True
  | d :: _ => tick d = false
  end ->
  match strip_fences_aux 0 s with
  | [] => True
  | e :: _ => tick e = false
  end.
Proof.
  destruct s as [|d r]; [intros _; exact I|].
  intros Hd. rewrite strip_keeps_head.
  - exact Hd.
  - rewrite startswith_fence. destruct r as [|b [|c r]]; try reflexivity.
    rewrite Hd. reflexivity.
Qed.

Lemma no_fence_after_strip_aux (n : nat) :
  forall s, (length s <= n)%nat ->
    contains fence (strip_fences_aux 0 s) = false.
Proof.
  induction n as [|n IH]; intros s Hlen.
  - destruct s; [reflexivity | simpl in Hlen; lia].
  - destruct s as [|c r]; [reflexivity|].
    simpl in Hlen.
    destruct (startswith fence (c :: r)) eqn:Hf.
    + cbn [strip_fences_aux]. change (lit "```") with fence. rewrite Hf.
      destruct (newline_offset (skipn 2 r)); rewrite skip_then_strip;
        apply IH; rewrite length_skipn; lia.
    + rewrite (@strip_keeps_head _ _ Hf). rewrite contains_cons.
      rewrite (IH r) by lia. rewrite orb_false_r.
      rewrite startswith_fence.
      destruct (tick c) eqn:Hc.
      2:{ destruct (strip_fences_aux 0 r) as [|a [|b t]]; reflexivity. }
      rewrite startswith_fence in Hf. rewrite Hc in Hf.
      destruct r as [|d r']; [reflexivity|].
      destruct (tick d) eqn:Hd.
      2:{ pose proof (strip_head_no_tick (d :: r') Hd) as H.
          destruct (strip_fences_aux 0 (d :: r')) as [|a [|b t]];
            try reflexivity. rewrite H. reflexivity. }
      assert (Hf' : startswith fence (d :: r') = false).
      { rewrite startswith_fence. destruct r' as [|e [|g r'']]; try reflexivity.
        cbn [andb] in Hf. rewrite Hd, Hf. reflexivity. }
      rewrite (@strip_keeps_head _ _ Hf'). rewrite Hd. cbn [andb].
      assert (Hr' : match r' with [] => True | e :: _ => tick e = false end).
      { destruct r' as [|e r'']; [exact I|]. cbn [andb] in Hf. exact Hf. }
      pose proof (strip_head_no_tick r' Hr') as H.
      destruct (strip_fences_aux 0 r') as [|a t]; [reflexivity|].
      rewrite H. reflexivity.
Qed.

Lemma strip_fences_leaves_no_fence (query : str) :
  contains fence (strip_fences query) = false.
Proof. exact (@no_fence_after_strip_aux (length query) query (le_n _)). Qed.

Lemma startswith_app (sep s : str) :
  startswith sep s = true <-> exists post, s = sep ++ post.
Proof.
  revert s. induction sep as [|x sep IH]; intros s.
  - split; [intros _; exists s; reflexivity | reflexivity].
  - destruct s as [|y s]; cbn [startswith].
    + split; [discriminate | intros [post H]; discriminate H].
    + rewrite andb_true_iff. unfold cp_eqb. rewrite N.eqb_eq. rewrite IH.
      split.
      * intros [-> [post ->]]. exists post. reflexivity.
      * intros [post H]. injection H as -> ->. split; [reflexivity|].
        exists post. reflexivity.
Qed.

Lemma contains_occurs (sep s : str) :
  contains sep s = true <-> exists pre post, s = pre ++ sep ++ post.
Proof.
  induction s as [|c s IH].
  - unfold contains, find. cbn [find_from].
    destruct (startswith sep []) eqn:H.
    + split; [|reflexivity]. intros _. apply startswith_app in H.
      destruct H as [post H]. exists [], post. exact H.
    + split; [discriminate|]. intros [pre [post Hs]].
      assert (Hsep : startswith sep [] = true).
      { apply startswith_app. destruct pre; [|discriminate Hs].
        exists post. exact Hs. }
      congruence.
  - rewrite contains_cons, orb_true_iff, IH, startswith_app. split.
    + intros [[post H] | [pre [post H]]].
      * exists [], post. exact H.
      * exists (c :: pre), post. rewrite H. reflexivity.
    + intros [pre [post H]]. destruct pre as [|p pre].
      * left. exists post. exact H.
      * right. injection H as _ H. exists pre, post. exact H.
Qed.

(** A piece of a text without the separator has none either. *)
Lemma contains_piece (sep before s after : str) :
  contains sep (before ++ s ++ after) = false -> contains sep s = false.
Proof.
  intros H. destruct (contains sep s) eqn:Hs; [|reflexivity].
  apply contains_occurs in Hs. destruct Hs as [pre [post ->]].
  assert (Hall : contains sep (before ++ (pre ++ sep ++ post) ++ after) = true).
  { apply contains_occurs. exists (before ++ pre), (post ++ after).
    rewrite <- !app_assoc. reflexivity. }
  congruence.
Qed.

Lemma strip_piece (s : str) : exists before after, s = before ++ strip s ++ after.
Proof.
  unfold strip.
  destruct (CleanupFacts.dropWhile_suffix isspace s) as [before Hb].
  destruct (CleanupFacts.rstrip_prefix (lstrip s)) as [after Ha].
  exists before, after. unfold lstrip in *. rewrite <- Ha. exact Hb.
Qed.

(** The expression handed to [eval] (line 32) holds no markdown fence,
    whatever the query text was: [re.sub] removes every fence and the
    removals never bring the pieces of a new one together. *)
Theorem evaluated_expression_has_no_fence (query : str) :
  contains fence (strip (strip_fences query)) = false.
Proof.
  destruct (strip_piece (strip_fences query)) as [before [after H]].
  apply (@contains_piece fence before (strip (strip_fences query)) after).
  rewrite <- H. apply strip_fences_leaves_no_fence.
Qed.

End FenceFacts.

(* ================================================================== *)
(** * Further properties: the payload given to the decoder *)
(* ================================================================== *)

Module PayloadFacts.
Import PyStr PptGenerator.

Lemma find_from_spec (sub s : str) :
  forall i z, find_from sub s i = z -> z <> (-1)%Z ->
    exists pre post, s = pre ++ sub ++ post /\ z = (i + Z.of_nat (length pre))%Z.
Proof.
  induction s as [|c s IH]; intros i z Hz Hne; cbn [find_from] in Hz.
  - destruct (startswith sub []) eqn:Hs; [|congruence].
    apply FenceFacts.startswith_app in Hs. destruct Hs as [post Hs].
    exists [], post. split; [exact Hs | simpl; lia].
  - destruct (startswith sub (c :: s)) eqn:Hs.
    + apply FenceFacts.startswith_app in Hs. destruct Hs as [post Hs].
      exists [], post. split; [exact Hs | simpl; lia].
    + destruct (IH (i + 1)%Z z Hz Hne) as [pre [post [-> ->]]].
      exists (c :: pre), post. split; [reflexivity | simpl length; lia].
Qed.

Lemma rfind_from_spec (sub s : str) :
  forall i z, rfind_from sub s i = z -> (0 <= z)%Z ->
    exists pre post, s = pre ++ sub ++ post /\ z = (i + Z.of_nat (length pre))%Z.
Proof.
  induction s as [|c s IH]; intros i z Hz Hnn; cbn [rfind_from] in Hz.
  - destruct (startswith sub []) eqn:Hs; [|lia].
    apply FenceFacts.startswith_app in Hs. destruct Hs as [post Hs].
    exists [], post. split; [exact Hs | simpl; lia].
  - cbv zeta in Hz.
    destruct (0 <=? rfind_from sub s (i + 1))%Z eqn:Hlater.
    + destruct (IH (i + 1)%Z z Hz Hnn) as [pre [post [-> ->]]].
      exists (c :: pre), post. split; [reflexivity | simpl length; lia].
    + destruct (startswith sub (c :: s)) eqn:Hs; [|lia].
      apply FenceFacts.startswith_app in Hs. destruct Hs as [post Hs].
      exists [], post. split; [exact Hs | simpl; lia].
Qed.

Lemma slice_inside {A : Type} (pre mid post : list A) :
  slice (pre ++ mid ++ post) (Z.of_nat (length pre))
        (Z.of_nat (length pre + length mid))
  = mid.
Proof.
  unfold slice, clamp.
  assert (H1 : (Z.of_nat (length pre) <? 0)%Z = false) by (apply Z.ltb_ge; lia).
  assert (H2 : (Z.of_nat (length pre + length mid) <? 0)%Z = false)
    by (apply Z.ltb_ge; lia).
  rewrite H1, H2. rewrite !length_app.
  rewrite !Z.min_l by lia. rewrite !Nat2Z.id.
  rewrite firstn_app. rewrite firstn_all2 by lia.
  replace (length pre + length mid - length pre)%nat with (length mid) by lia.
  rewrite firstn_app, firstn_all, Nat.sub_diag. simpl firstn at 1.
  rewrite app_nil_r. rewrite skipn_app, skipn_all, Nat.sub_diag. reflexivity.
Qed.

(** The span from an opening brace to a closing brace after it. *)
Lemma brace_span (s pre1 post1 pre2 post2 : str) :
  s = pre1 ++ [123%N] ++ post1 ->
  s = pre2 ++ [125%N] ++ post2 ->
  (length pre1 < length pre2 + 1)%nat ->
  exists mid,
    s = pre1 ++ [123%N] ++ mid ++ [125%N] ++ post2
    /\ slice s (Z.of_nat (length pre1)) (Z.of_nat (length pre2) + 1)
       = [123%N] ++ mid ++ [125%N].
Proof.
  intros H1 H2 Hlt.
  assert (Hne : length pre1 <> length pre2).
  { intros Heq.
    assert (Hn1 : nth_error s (length pre1) = Some 123%N).
    { rewrite H1. rewrite nth_error_app2 by lia. rewrite Nat.sub_diag.
      reflexivity. }
    assert (Hn2 : nth_error s (length pre1) = Some 125%N).
    { rewrite H2, Heq. rewrite nth_error_app2 by lia. rewrite Nat.sub_diag.
      reflexivity. }
    congruence. }
  assert (Hpre2 : pre2 = pre1 ++ [123%N]
                         ++ firstn (length pre2 - length pre1 - 1) post1).
  { assert (Hf : firstn (length pre2) s = pre2).
    { rewrite H2. rewrite firstn_app, firstn_all, Nat.sub_diag. simpl.
      apply app_nil_r. }
    rewrite <- Hf at 1. rewrite H1. rewrite firstn_app.
    rewrite firstn_all2 by lia. f_equal.
    destruct (length pre2 - length pre1)%nat as [|k] eqn:Hk; [lia|].
    cbn [Nat.sub]. rewrite Nat.sub_0_r. reflexivity. }
  remember (firstn (length pre2 - length pre1 - 1) post1) as mid eqn:Hmid.
  clear Hmid.
  exists mid.
  assert (Hs : s = pre1 ++ ([123%N] ++ mid ++ [125%N]) ++ post2).
  { rewrite H2. rewrite Hpre2 at 1. rewrite <- !app_assoc. reflexivity. }
  split; [rewrite Hs; rewrite <- !app_assoc; reflexivity|].
  rewrite Hs at 1.
  replace (Z.of_nat (length pre2) + 1)%Z
    with (Z.of_nat (length pre1 + length ([123%N] ++ mid ++ [125%N]))).
  - apply slice_inside.
  - assert (Hl : length pre2 = (length pre1 + 1 + length mid)%nat).
    { rewrite Hpre2 at 1. rewrite !length_app. simpl length.
      apply Nat.add_assoc. }
    rewrite !length_app. simpl length. unfold str, codepoint in *. lia.
Qed.

(** A single character is found at its first occurrence. *)
Lemma find_first (c : codepoint) (s : str) :
  forall i z, find_from [c] s i = z -> z <> (-1)%Z ->
    exists pre post,
      s = pre ++ [c] ++ post /\ z = (i + Z.of_nat (length pre))%Z
      /\ ~ In c pre.
Proof.
  induction s as [|y s IH]; intros i z Hz Hne; cbn [find_from startswith] in Hz.
  - congruence.
  - unfold cp_eqb in Hz. rewrite andb_true_r in Hz.
    destruct (N.eqb_spec c y) as [-> | Hcy].
    + exists [], s. split; [reflexivity|]. split; [simpl; lia | intros []].
    + destruct (IH (i + 1)%Z z Hz Hne) as [pre [post [-> [-> Hpre]]]].
      exists (y :: pre), post. split; [reflexivity|].
      split; [simpl length; lia|].
      intros [H | H]; [congruence | exact (Hpre H)].
Qed.

(** It is found no later than any of its occurrences. *)
Lemma find_bound (c : codepoint) (pre post : str) :
  forall i, (i <= find_from [c] (pre ++ [c] ++ post) i
             <= i + Z.of_nat (length pre))%Z.
Proof.
  induction pre as [|y pre IH]; intros i; cbn [app find_from startswith];
    unfold cp_eqb; rewrite andb_true_r.
  - rewrite N.eqb_refl. simpl. lia.
  - destruct (N.eqb c y).
    + simpl length. lia.
    + specialize (IH (i + 1)%Z). cbn [app] in IH. simpl length. lia.
Qed.

Lemma rfind_range (c : codepoint) (s : str) :
  forall i, rfind_from [c] s i = (-1)%Z \/ (i <= rfind_from [c] s i)%Z.
Proof.
  induction s as [|y s IH]; intros i; cbn [rfind_from startswith].
  - left. reflexivity.
  - cbv zeta. destruct (0 <=? rfind_from [c] s (i + 1))%Z eqn:Hlater.
    + apply Z.leb_le in Hlater. destruct (IH (i + 1)%Z) as [H | H]; [lia|].
      right. lia.
    + destruct (cp_eqb c y && true); [right; lia | left; reflexivity].
Qed.

(** From the right, it is found no earlier than any of its occurrences. *)
Lemma rfind_bound (c : codepoint) (pre post : str) :
  forall i, (0 <= i)%Z ->
    (i + Z.of_nat (length pre) <= rfind_from [c] (pre ++ [c] ++ post) i)%Z.
Proof.
  induction pre as [|y pre IH]; intros i Hi; cbn [app rfind_from startswith];
    cbv zeta.
  - destruct (0 <=? rfind_from [c] post (i + 1))%Z eqn:Hlater.
    + apply Z.leb_le in Hlater.
      destruct (rfind_range c post (i + 1)%Z) as [H | H]; simpl length; lia.
    + unfold cp_eqb. rewrite N.eqb_refl. simpl. lia.
  - assert (Hi' : (0 <= i + 1)%Z) by lia.
    specialize (IH (i + 1)%Z Hi'). cbn [app] in IH.
    assert (Hle : (0 <=? rfind_from [c] (pre ++ c :: post) (i + 1))%Z = true)
      by (apply Z.leb_le; lia).
    rewrite Hle. simpl length. lia.
Qed.

(** From the right, it is found at its last occurrence. *)
Lemma rfind_last (c : codepoint) (s : str) :
  forall i z, (0 <= i)%Z -> rfind_from [c] s i = z -> (0 <= z)%Z ->
    exists pre post,
      s = pre ++ [c] ++ post /\ z = (i + Z.of_nat (length pre))%Z
      /\ ~ In c post.
Proof.
  induction s as [|y s IH]; intros i z Hi Hz Hnn;
    cbn [rfind_from startswith] in Hz.
  - lia.
  - cbv zeta in Hz.
    destruct (0 <=? rfind_from [c] s (i + 1))%Z eqn:Hlater.
    + assert (Hi' : (0 <= i + 1)%Z) by lia.
      destruct (IH (i + 1)%Z z Hi' Hz Hnn) as [pre [post [-> [-> Hpost]]]].
      exists (y :: pre), post. split; [reflexivity|].
      split; [simpl length; lia | exact Hpost].
    + unfold cp_eqb in Hz. rewrite andb_true_r in Hz.
      destruct (N.eqb_spec c y) as [-> | Hcy]; [|lia].
      exists [], s. split; [reflexivity|]. split; [simpl; lia|].
      intros Hin. apply in_split in Hin. destruct Hin as [a [b ->]].
      apply Z.leb_gt in Hlater.
      assert (Hi' : (0 <= i + 1)%Z) by lia.
      pose proof (@rfind_bound y a b (i + 1)%Z Hi') as Hb.
      cbn [app] in Hb. lia.
Qed.

(** Lines 357-359 on the text the braces are looked for in. *)
Lemma brace_payload (fenced payload : str) :
  (if negb (find (lit "{") fenced =? -1)%Z
      && (find (lit "{") fenced <? rfind (lit "}") fenced + 1)%Z
   then slice fenced (find (lit "{") fenced) (rfind (lit "}") fenced + 1)
   else fenced) = payload ->
  (exists pre mid post,
     fenced = pre ++ [123%N] ++ mid ++ [125%N] ++ post
     /\ ~ In 123%N pre /\ ~ In 125%N post
     /\ payload = [123%N] ++ mid ++ [125%N])
  \/ (payload = fenced
      /\ forall pre post,
           fenced = pre ++ [123%N] ++ post -> ~ In 125%N post).
Proof.
  change (lit "{") with [123%N]. change (lit "}") with [125%N].
  unfold find, rfind.
  destruct (negb (find_from [123%N] fenced 0 =? -1)%Z
            && (find_from [123%N] fenced 0 <? rfind_from [125%N] fenced 0 + 1)%Z)
    eqn:Hspan; intros <-.
  - left. apply andb_true_iff in Hspan. destruct Hspan as [Hfound Hlt].
    apply negb_true_iff, Z.eqb_neq in Hfound. apply Z.ltb_lt in Hlt.
    destruct (@find_first 123%N fenced 0 _ eq_refl Hfound)
      as [pre1 [post1 [H1 [Hz1 Hpre1]]]].
    assert (Hnn : (0 <= rfind_from [125%N] fenced 0)%Z)
      by (unfold str, codepoint in *; lia).
    destruct (@rfind_last 125%N fenced 0 _ (Z.le_refl 0) eq_refl Hnn)
      as [pre2 [post2 [H2 [Hz2 Hpost2]]]].
    unfold str, codepoint in *.
    rewrite Hz1, Hz2. rewrite Hz1, Hz2 in Hlt. rewrite !Z.add_0_l in *.
    assert (Hlen : (length pre1 < length pre2 + 1)%nat) by lia.
    destruct (@brace_span fenced pre1 post1 pre2 post2 H1 H2 Hlen)
      as [mid [Hall Hslice]].
    exists pre1, mid, post2.
    split; [exact Hall|]. split; [exact Hpre1|]. split; [exact Hpost2|].
    exact Hslice.
  - right. split; [reflexivity|]. intros pre post Hdec Hin.
    apply in_split in Hin. destruct Hin as [a [b ->]]. subst fenced.
    pose proof (@find_bound 123%N pre (a ++ 125%N :: b) 0) as Hf.
    pose proof (@rfind_bound 125%N (pre ++ [123%N] ++ a) b 0 (Z.le_refl 0))
      as Hr.
    rewrite !length_app in Hr. simpl length in Hr.
    rewrite <- !app_assoc in Hr.
    unfold str, codepoint in *. cbn [app] in Hf, Hr, Hspan.
    apply andb_false_iff in Hspan. destruct Hspan as [Hnone | Hge].
    + apply negb_false_iff, Z.eqb_eq in Hnone. lia.
    + apply Z.ltb_ge in Hge. lia.
Qed.

(** What [json.loads] is given, read off the response.  The text the
    braces are looked for in is the response itself when it holds no
    fence, and otherwise the second piece of the response split at its
    fences, stripped, and without a leading [json].  When that text has a
    closing brace after an opening one, the payload is exactly its span
    from the first opening brace to the last closing brace; otherwise the
    payload is that text as it is. *)
Theorem extract_json_payload (response payload : str) :
  extract_json response = Py.Ok payload ->
  exists fenced,
    (contains fence response = false -> fenced = response)
    /\ (contains fence response = true ->
        exists before part rest,
          split fence response = before :: part :: rest
          /\ fenced = (if startswith (lit "json") (strip part)
                       then strip (slice_from (strip part) 4)
                       else strip part))
    /\ ((exists pre mid post,
           fenced = pre ++ [123%N] ++ mid ++ [125%N] ++ post
           /\ ~ In 123%N pre /\ ~ In 125%N post
           /\ payload = [123%N] ++ mid ++ [125%N])
        \/ (payload = fenced
            /\ forall pre post,
                 fenced = pre ++ [123%N] ++ post -> ~ In 125%N post)).
Proof.
  unfold extract_json. intros Hrun.
  destruct (contains fence response) eqn:Hc.
  - destruct (split fence response) as [|before [|part rest]] eqn:Hsplit;
      try discriminate Hrun.
    cbv zeta in Hrun. cbn [Py.bind] in Hrun. injection Hrun as Hrun.
    eexists. split; [discriminate|]. split.
    + intros _. exists before, part, rest. split; reflexivity.
    + exact (brace_payload _ Hrun).
  - cbn [Py.bind] in Hrun. cbv zeta in Hrun. injection Hrun as Hrun.
    exists response. split; [reflexivity|]. split; [discriminate|].
    exact (brace_payload _ Hrun).
Qed.

(** The theorem at a response that wraps the object in prose: the payload
    is the span of the braces. *)
Lemma extract_json_payload_witness :
  exists fenced,
    (contains fence (Json.jlit "Here you go: {'slides': []} Enjoy!") = false ->
     fenced = Json.jlit "Here you go: {'slides': []} Enjoy!")
    /\ (contains fence (Json.jlit "Here you go: {'slides': []} Enjoy!") = true ->
        exists before part rest,
          split fence (Json.jlit "Here you go: {'slides': []} Enjoy!")
          = before :: part :: rest
          /\ fenced = (if startswith (lit "json") (strip part)
                       then strip (slice_from (strip part) 4)
                       else strip part))
    /\ ((exists pre mid post,
           fenced = pre ++ [123%N] ++ mid ++ [125%N] ++ post
           /\ ~ In 123%N pre /\ ~ In 125%N post
           /\ Json.jlit "{'slides': []}" = [123%N] ++ mid ++ [125%N])
        \/ (Json.jlit "{'slides': []}" = fenced
            /\ forall pre post,
                 fenced = pre ++ [123%N] ++ post -> ~ In 125%N post)).
Proof.
  apply (@extract_json_payload
           (Json.jlit "Here you go: {'slides': []} Enjoy!")
           (Json.jlit "{'slides': []}")).
  vm_compute. reflexivity.
Defined.

End PayloadFacts.

(* ================================================================== *)
(** * Further properties: chart type and fallback *)
(* ================================================================== *)

Module ChartMoreFacts.
Import PyStr Pandas Llm ChartGenerator Fixtures.

Section WithBackends.

Variable ai : completion.
Variable lower : str -> str.
Variable PLOTLY_AVAILABLE : bool.
Variable plotly_write : figure -> str -> Py.result unit.
Variable matplotlib_save : figure -> str -> Py.result unit.

Lemma determine_chart_type_range (df : DataFrame) (question t : str) :
  determine_chart_type ai lower df question = Py.Ok t ->
  t = lit "bar" \/ t = lit "pie".
Proof.
  unfold determine_chart_type.
  destruct (ai (ChartTypePrompt df question)) as [text|e]; cbn [Py.bind];
    [|discriminate].
  destruct (PyStr.eqb (lower (strip text)) (lit "bar")) eqn:Hbar; cbn [orb].
  - intros H. injection H as <-. left. apply PyStrFacts.eqb_eq. exact Hbar.
  - destruct (PyStr.eqb (lower (strip text)) (lit "pie")) eqn:Hpie.
    + intros H. injection H as <-. right. apply PyStrFacts.eqb_eq. exact Hpie.
    + intros H. injection H as <-. left. reflexivity.
Qed.

Lemma slide_override_range (lowered path t t' : str) :
  t = lit "bar" \/ t = lit "pie" ->
  slide_override lowered path (Some t) = Some t' ->
  t' = lit "bar" \/ t' = lit "pie".
Proof.
  intros Ht. unfold slide_override.
  destruct (_ || _).
  - intros H. injection H as <-. right. reflexivity.
  - destruct (_ || _); intros H; injection H as <-;
      [left; reflexivity | exact Ht].
Qed.

(** Whatever the LLM answers the classifier, a chart that [generate_chart]
    writes is a bar chart or a pie chart, drawn by either backend; and with
    Plotly installed it has at most 25 points. *)
Theorem generate_chart_bounds (df : DataFrame) (question path : str)
    (fig : figure) :
  generate_chart ai lower PLOTLY_AVAILABLE plotly_write matplotlib_save
    df question path = Py.Ok fig ->
  (fig_type fig = lit "bar" \/ fig_type fig = lit "pie")
  /\ (PLOTLY_AVAILABLE = true -> (length (fig_points fig) <= 25)%nat).
Proof.
  unfold generate_chart.
  destruct (determine_chart_type ai lower df question) as [t|e] eqn:Ht;
    cbn [Py.bind]; [|discriminate].
  pose proof (determine_chart_type_range df question Ht) as Hrange.
  intros Hrun. split.
  - destruct (sumbool_of_bool PLOTLY_AVAILABLE) as [Hp | Hp].
    + destruct (slide_override (lower question) path (Some t)) as [t'|]
        eqn:Hov.
      * rewrite (@ChartFacts.forced_chart_type ai lower PLOTLY_AVAILABLE
                   plotly_write matplotlib_save df question path (Some t) fig
                   t' Hp Hrun Hov).
        exact (slide_override_range _ _ Hrange Hov).
      * unfold slide_override in Hov.
        destruct (_ || _); [discriminate|]. destruct (_ || _); discriminate.
    + unfold create_plotly_chart in Hrun. rewrite Hp in Hrun.
      cbn [negb] in Hrun.
      unfold create_enhanced_matplotlib_chart in Hrun. rewrite Ht in Hrun.
      cbn [Py.bind] in Hrun.
      destruct (matplotlib_save _ path); cbn [Py.bind] in Hrun; [|discriminate].
      injection Hrun as <-. rewrite ChartFacts.matplotlib_figure_type.
      exact Hrange.
  - intros Hp.
    exact (@ChartFacts.sampled_chart_points ai lower PLOTLY_AVAILABLE
             plotly_write matplotlib_save df question path (Some t) fig Hp Hrun).
Qed.


End WithBackends.

Lemma generate_chart_bounds_witness :
  (rendered_type
     (generate_chart (answering (lit "Line chart, please")) ascii_lower true
        written written long_table (lit "Which region sells the most?")
        (lit "charts/chart_9.png"))
   = Some (lit "bar"))
  /\ (length
        (rendered_points
           (generate_chart (answering (lit "Line chart, please")) ascii_lower
              true written written long_table
              (lit "Which region sells the most?")
              (lit "charts/chart_9.png"))) <= 25)%nat.
Proof.
  destruct (generate_chart (answering (lit "Line chart, please")) ascii_lower
              true written written long_table
              (lit "Which region sells the most?") (lit "charts/chart_9.png"))
    as [fig|e] eqn:Hrun; [|vm_compute in Hrun; discriminate Hrun].
  destruct (@generate_chart_bounds _ _ true _ _ _ _ _ fig Hrun)
    as [Htype Hpoints].
  split.
  - cbn [rendered_type]. vm_compute in Hrun. injection Hrun as <-. reflexivity.
  - cbn [rendered_points]. apply Hpoints. reflexivity.
Defined.


End ChartMoreFacts.

(* ================================================================== *)
(** * Further properties: the template table and the loaded template *)
(* ================================================================== *)

Module TemplateFacts.
Import PyStr PyVal Layout Fixtures.

(** Lines 491-493 on the list of slides: the entry at an index is looked
    up, its relationship is dropped, and the entry is deleted. *)
Definition remove_at {A : Type} (i : nat) (l : list A) : list A :=
  firstn i l ++ skipn (S i) l.

Definition drop_slide_at (drop_rel : Presentation -> nat -> Py.result unit)
    (prs : Presentation) (i : nat) : Py.result Presentation :=
  match nth_error (slides prs) i with
  | Some _ =>
      _ <- drop_rel prs i ;;
      Py.Ok (mkPresentation (slide_layouts prs) (remove_at i (slides prs)))
  | None => Py.Raise Py.IndexError
  end.

Lemma find_last_app {A : Type} (p : A -> bool) (l : list A) (x : A) :
  List.find p (l ++ [x])
  = match List.find p l with
    | Some y => Some y
    | None => if p x then Some x else None
    end.
Proof.
  induction l as [|a l IH]; simpl.
  - reflexivity.
  - destruct (p a); [reflexivity | exact IH].
Qed.

Lemma dict_get_set (d : dict) (k k' : str) (v : value) :
  dict_get (dict_set d k v) k'
  = if PyStr.eqb k k' then Some v else dict_get d k'.
Proof.
  destruct (PyStr.eqb k k') eqn:Hk.
  - apply PyStrFacts.eqb_eq in Hk. subst k'. apply PyValFacts.dict_get_set_same.
  - apply PyValFacts.dict_get_set_other. exact Hk.
Qed.

Lemma dict_set_not_nil (d : dict) (k : str) (v : value) : dict_set d k v <> [].
Proof.
  destruct d as [|[k0 v0] d]; simpl; [discriminate|].
  destruct (PyStr.eqb k0 k); discriminate.
Qed.

Lemma dict_set_keys (d : dict) (k : str) (v : value) (k' : str) (v' : value) :
  In (k', v') (dict_set d k v) -> (k' = k /\ v' = v) \/ In (k', v') d.
Proof.
  induction d as [|[k0 v0] d IH]; simpl.
  - intros [H | []]. injection H as <- <-. left. split; reflexivity.
  - destruct (PyStr.eqb k0 k) eqn:Hk; simpl.
    + intros [H | H].
      * injection H as <- <-. left. split; [|reflexivity].
        apply PyStrFacts.eqb_eq. exact Hk.
      * right. right. exact H.
    + intros [H | H].
      * right. left. exact H.
      * destruct (IH H) as [Hl | Hr]; [left; exact Hl | right; right; exact Hr].
Qed.

Section WithTemplates.

Variable lower : str -> str.
Variable makedirs : str -> Py.result unit.
Variable glob_pptx : str -> list str.

(** Line 471. *)
Definition record_file (d : dict) (f : str) : dict :=
  dict_set d (template_key lower f) (VStr f).

Lemma fold_lookup (files : list str) :
  forall d k,
    dict_get (fold_left record_file files d) k
    = match List.find (fun f => PyStr.eqb (template_key lower f) k) (rev files) with
      | Some f => Some (VStr f)
      | None => dict_get d k
      end.
Proof.
  induction files as [|f files IH]; intros d k; simpl.
  - reflexivity.
  - rewrite IH. rewrite find_last_app.
    destruct (List.find _ (rev files)); [reflexivity|].
    unfold record_file. rewrite dict_get_set.
    destruct (PyStr.eqb (template_key lower f) k); reflexivity.
Qed.

Lemma fold_not_nil (files : list str) :
  forall d, d <> [] -> fold_left record_file files d <> [].
Proof.
  induction files as [|f files IH]; intros d Hd; simpl; [exact Hd|].
  apply IH. apply dict_set_not_nil.
Qed.

Lemma fold_entries (files : list str) :
  forall d k v,
    In (k, v) (fold_left record_file files d) ->
    In (k, v) d \/ exists f, In f files /\ k = template_key lower f /\ v = VStr f.
Proof.
  induction files as [|f files IH]; intros d k v Hin; simpl in Hin.
  - left. exact Hin.
  - destruct (IH _ _ _ Hin) as [Hd | [g [Hg Hk]]].
    + destruct (dict_set_keys _ _ _ _ _ Hd) as [[-> ->] | Hd'].
      * right. exists f. split; [left; reflexivity | split; reflexivity].
      * left. exact Hd'.
    + right. exists g. split; [right; exact Hg | exact Hk].
Qed.

Lemma template_key_chars (f : str) (c : codepoint) :
  In c (template_key lower f) -> c <> 32%N /\ c <> 45%N.
Proof.
  unfold template_key, replace_char. rewrite map_map. intros Hin.
  apply in_map_iff in Hin. destruct Hin as [c0 [<- _]].
  unfold cp_eqb.
  destruct (N.eqb_spec c0 32) as [-> | H32]; [split; discriminate|].
  destruct (N.eqb_spec c0 45) as [-> | H45]; [split; discriminate|].
  split; assumption.
Qed.

(** The table the scan returns is never empty.  Without a [.pptx] file it
    has the single entry ["default"] with no file.  With files, a name
    reads the last file, in the order of [glob], whose normalised stem is
    that name, every entry comes from a file, and no name holds a blank or
    a hyphen. *)
Theorem scan_pptx_templates_table (templates_folder : str) (available : dict) :
  scan_pptx_templates lower makedirs glob_pptx templates_folder
  = Py.Ok available ->
  available <> []
  /\ (glob_pptx templates_folder = [] -> available = [(lit "default", VNone)])
  /\ (glob_pptx templates_folder <> [] ->
      (forall k,
         dict_get available k
         = option_map VStr
             (List.find (fun f => PyStr.eqb (template_key lower f) k)
                (rev (glob_pptx templates_folder))))
      /\ (forall k v, In (k, v) available ->
            (exists f, In f (glob_pptx templates_folder)
                       /\ k = template_key lower f /\ v = VStr f)
            /\ ~ In 32%N k /\ ~ In 45%N k)).
Proof.
  unfold scan_pptx_templates.
  destruct (makedirs templates_folder); cbn [Py.bind]; [|discriminate].
  change (fun (d : dict) (f : str) => dict_set d (template_key lower f) (VStr f))
    with record_file.
  destruct (glob_pptx templates_folder) as [|f files] eqn:Hglob.
  - simpl. intros H. injection H as <-.
    split; [discriminate|]. split; [reflexivity|]. intros Hne. congruence.
  - assert (Hnn : fold_left record_file (f :: files) [] <> []).
    { simpl. apply fold_not_nil. apply dict_set_not_nil. }
    destruct (fold_left record_file (f :: files) []) as [|entry d] eqn:Hfold;
      [congruence|].
    intros H. injection H as <-.
    split; [discriminate|]. split; [discriminate|].
    intros _. rewrite <- Hfold. split.
    + intros k. rewrite fold_lookup.
      destruct (List.find _ (rev (f :: files))); reflexivity.
    + intros k v Hin.
      destruct (fold_entries _ _ _ _ Hin) as [[] | [g [Hg [-> ->]]]].
      split.
      * exists g. split; [exact Hg | split; reflexivity].
      * split; intros Hc; apply template_key_chars in Hc; destruct Hc; congruence.
Qed.

End WithTemplates.

Lemma remove_last {A : Type} (l : list A) (i : nat) :
  length l = S i -> length (remove_at i l) = i /\ nth_error l i <> None.
Proof.
  intros Hl. unfold remove_at. split.
  - rewrite skipn_all2 by lia. rewrite app_nil_r. rewrite length_firstn. lia.
  - apply nth_error_Some. lia.
Qed.

Section Stripping.

Variable drop_rel : Presentation -> nat -> Py.result unit.
Hypothesis drop_rel_done : forall prs i, drop_rel prs i = Py.Ok tt.

Lemma drop_slides_all (n : nat) :
  forall prs, length (slides prs) = n ->
    drop_slides (drop_slide_at drop_rel) n prs
    = Py.Ok (mkPresentation (slide_layouts prs) []).
Proof.
  induction n as [|i IH]; intros prs Hn; cbn [drop_slides].
  - destruct prs as [layouts sl]. simpl in Hn.
    apply length_zero_iff_nil in Hn. subst sl. reflexivity.
  - destruct (remove_last (slides prs) Hn) as [Hlen Hnth].
    unfold drop_slide_at at 1.
    destruct (nth_error (slides prs) i); [|congruence].
    rewrite drop_rel_done. cbn [Py.bind].
    rewrite IH by exact Hlen. reflexivity.
Qed.

End Stripping.

Section Loading.

Variable lower : str -> str.
Variable makedirs : str -> Py.result unit.
Variable glob_pptx : str -> list str.
Variable open_presentation : str -> Py.result Presentation.
Variable drop_rel : Presentation -> nat -> Py.result unit.

(** A template that is found and opens, and whose relationships all drop,
    is returned with the layouts of its document and none of its slides. *)
Theorem load_pptx_template_strips_slides (template_name templates_folder : str)
    (available : dict) (c : codepoint) (path : str) (document : Presentation) :
  scan_pptx_templates lower makedirs glob_pptx templates_folder
  = Py.Ok available ->
  dict_get available (lower template_name) = Some (VStr (c :: path)) ->
  open_presentation (c :: path) = Py.Ok document ->
  (forall prs i, drop_rel prs i = Py.Ok tt) ->
  load_pptx_template lower makedirs glob_pptx open_presentation
    (drop_slide_at drop_rel) template_name templates_folder
  = Py.Ok (mkPresentation (slide_layouts document) []).
Proof.
  intros Hscan Hget Hopen Hdrop. unfold load_pptx_template.
  rewrite Hscan. cbn [Py.bind]. rewrite Hget, Hopen. cbn [Py.bind].
  rewrite (@drop_slides_all drop_rel Hdrop (length (slides document)) document
             eq_refl).
  reflexivity.
Qed.

End Loading.

(** Two files whose stems normalise to the same name. *)
Definition two_blue_templates : str -> list str :=
  fun _ => [lit "templates/Modern Blue.pptx"; lit "templates/modern-blue.pptx"].

Lemma scan_pptx_templates_table_witness :
  dict_get
    [(lit "modern_blue", VStr (lit "templates/modern-blue.pptx"))]
    (lit "modern_blue")
  = Some (VStr (lit "templates/modern-blue.pptx"))
  /\ ~ In 32%N (lit "modern_blue").
Proof.
  destruct (@scan_pptx_templates_table ascii_lower created two_blue_templates
              (lit "templates")
              [(lit "modern_blue", VStr (lit "templates/modern-blue.pptx"))]
              eq_refl) as [_ [_ Hfiles]].
  destruct Hfiles as [Hlookup Hentries]; [discriminate|].
  split.
  - rewrite Hlookup. reflexivity.
  - apply (Hentries (lit "modern_blue")
             (VStr (lit "templates/modern-blue.pptx"))).
    left. reflexivity.
Defined.

(** A document of three layouts and two slides, and a package whose
    relationships always drop. *)
Definition two_slide_document : str -> Py.result Presentation :=
  fun _ => Py.Ok (mkPresentation 3 [[]; []]).
Definition rel_dropped : Presentation -> nat -> Py.result unit :=
  fun _ _ => Py.Ok tt.

Lemma load_pptx_template_strips_slides_witness :
  load_pptx_template ascii_lower created one_template two_slide_document
    (drop_slide_at rel_dropped) (lit "Modern_Blue_2024") (lit "templates")
  = Py.Ok (mkPresentation 3 []).
Proof.
  apply (@load_pptx_template_strips_slides ascii_lower created one_template
           two_slide_document rel_dropped (lit "Modern_Blue_2024")
           (lit "templates")
           [(lit "modern_blue_2024",
             VStr (lit "templates/Modern Blue-2024.pptx"))]
           116%N (lit "emplates/Modern Blue-2024.pptx")
           (mkPresentation 3 [[]; []])); reflexivity.
Defined.

End TemplateFacts.

(* ================================================================== *)
(** * Lengths of whole percentages and the geometry of a chart slide *)
(* ================================================================== *)

Module GeometryFacts.
Import PyStr PyVal Layout Fixtures.

(** A whole percentage, as the double the division of line 131 or 133
    makes of the integer the configuration tables hold. *)
Definition whole_percent (p : nat) : float :=
  PrimFloat.of_uint63 (Uint63.of_Z (Z.of_nat p)).

(** The slide of [SlideConfig], 10 by 7.5 inches, in EMU. *)
Definition SLIDE_WIDTH_EMU : Z := 9144000.
Definition SLIDE_HEIGHT_EMU : Z := 6858000.

Definition near_exact (exact : Z) (r : Py.result Z) : bool :=
  match r with
  | Py.Ok n => ((exact - 1 <=? n) && (n <=? exact))%Z
  | Py.Raise _ => false
  end.

Definition whole_percent_ok (p : nat) : bool :=
  near_exact (Z.of_nat p * 91440)
    (percent_to_inches new_template (whole_percent p) (lit "width"))
  && near_exact (Z.of_nat p * 68580)
       (percent_to_inches new_template (whole_percent p) (lit "height")).

Definition box_of (s : shape) : box :=
  match s with
  | TextBox at_ _ _ _ _ => at_
  | Picture _ at_ => at_
  end.

(** A box that lies on the slide. *)
Definition within_slide (b : box) : Prop :=
  (0 <= box_left b)%Z /\ (0 <= box_top b)%Z
  /\ (box_left b + box_width b <= SLIDE_WIDTH_EMU)%Z
  /\ (box_top b + box_height b <= SLIDE_HEIGHT_EMU)%Z.

(** A file system in which every chart was written and can be read. *)
Definition every_file : str -> bool := fun _ => true.
Definition readable : str -> Py.result unit := fun _ => Py.Ok tt.

Lemma whole_percents_checked : forallb whole_percent_ok (seq 0 101) = true.
Proof. vm_compute. reflexivity. Qed.

(** The length of a whole percentage between 0 and 100, of either
    dimension of the default template, is a length and not an error; it is
    the exact fraction of the slide (p * 91440 EMU of the width, p * 68580
    EMU of the height) or one EMU less, the doubles rounding below the
    exact product before [int] truncates; it is never more than the slide's
    dimension. *)
Theorem percent_to_inches_whole_percent (p : nat) :
  (p <= 100)%nat ->
  exists w h,
    percent_to_inches new_template (whole_percent p) (lit "width") = Py.Ok w
    /\ percent_to_inches new_template (whole_percent p) (lit "height") = Py.Ok h
    /\ (Z.of_nat p * 91440 - 1 <= w <= Z.of_nat p * 91440)%Z
    /\ (Z.of_nat p * 68580 - 1 <= h <= Z.of_nat p * 68580)%Z
    /\ (w <= SLIDE_WIDTH_EMU)%Z /\ (h <= SLIDE_HEIGHT_EMU)%Z.
Proof.
  intros Hp.
  assert (Hin : In p (seq 0 101)) by (apply in_seq; lia).
  pose proof (proj1 (forallb_forall _ _) whole_percents_checked p Hin) as Hok.
  unfold whole_percent_ok in Hok. apply andb_true_iff in Hok.
  destruct Hok as [Hw Hh].
  destruct (percent_to_inches new_template (whole_percent p) (lit "width"))
    as [w|e]; [|discriminate Hw].
  destruct (percent_to_inches new_template (whole_percent p) (lit "height"))
    as [h|e]; [|discriminate Hh].
  exists w, h. cbn [near_exact] in Hw, Hh.
  apply andb_true_iff in Hw. apply andb_true_iff in Hh.
  destruct Hw as [Hw1 Hw2]. destruct Hh as [Hh1 Hh2].
  apply Z.leb_le in Hw1, Hw2, Hh1, Hh2.
  unfold SLIDE_WIDTH_EMU, SLIDE_HEIGHT_EMU.
  repeat split; try reflexivity; lia.
Qed.

(** The theorem at 24 percent, the top of the chart and of its text. *)
Lemma percent_to_inches_whole_percent_witness :
  exists w h,
    percent_to_inches new_template (whole_percent 24) (lit "width") = Py.Ok w
    /\ percent_to_inches new_template (whole_percent 24) (lit "height") = Py.Ok h
    /\ (Z.of_nat 24 * 91440 - 1 <= w <= Z.of_nat 24 * 91440)%Z
    /\ (Z.of_nat 24 * 68580 - 1 <= h <= Z.of_nat 24 * 68580)%Z
    /\ (w <= SLIDE_WIDTH_EMU)%Z /\ (h <= SLIDE_HEIGHT_EMU)%Z.
Proof. apply (@percent_to_inches_whole_percent 24). lia. Defined.

(** The one-EMU loss happens: 24 percent of the height is 1645919 EMU,
    where the exact length is 1645920. *)
Example top_of_chart_is_one_short :
  percent_to_inches new_template (whole_percent 24) (lit "height")
  = Py.Ok 1645919%Z.
Proof. vm_compute. reflexivity. Qed.

Section WithFiles.

Variable path_exists : str -> bool.
Variable read_image : str -> Py.result unit.

(** On every chart slide the default template makes, the title box and the
    bullet box lie on the slide, and the picture does not: its right edge is
    1371600 EMU (an inch and a half, 15 percent of the width) beyond the
    slide's right edge, its table asking for 45 percent of the width from 70
    percent on; vertically the picture stays on the slide. *)
Theorem chart_slide_geometry (prs prs' : Presentation)
    (title_text chart_path : str) (bullet_points : list str) (s : slide) :
  (5 < slide_layouts prs)%nat ->
  create_chart_slide path_exists read_image new_template prs title_text
    chart_path bullet_points = Py.Ok (prs', s) ->
  forall sh, In sh s ->
    (is_picture sh = false -> within_slide (box_of sh))
    /\ (is_picture sh = true ->
        (box_left (box_of sh) + box_width (box_of sh)
         = SLIDE_WIDTH_EMU + 1371600)%Z
        /\ (0 <= box_top (box_of sh))%Z
        /\ (box_top (box_of sh) + box_height (box_of sh) <= SLIDE_HEIGHT_EMU)%Z).
Proof.
  intros Hl.
  rewrite (LayoutFacts.create_chart_slide_cases path_exists read_image prs
             title_text chart_path bullet_points Hl).
  assert (Htitle : within_slide (box_of (chart_title_box title_text))).
  { unfold within_slide, SLIDE_WIDTH_EMU, SLIDE_HEIGHT_EMU. simpl. lia. }
  assert (Htext : within_slide (box_of (chart_text_box bullet_points))).
  { unfold within_slide, SLIDE_WIDTH_EMU, SLIDE_HEIGHT_EMU. simpl. lia. }
  destruct (path_exists chart_path).
  - destruct (read_image chart_path); [|discriminate].
    cbv zeta. intros H. injection H as _ <-.
    intros sh [<- | [<- | [<- | []]]]; split; intros Hp;
      try discriminate Hp; try assumption.
    unfold SLIDE_WIDTH_EMU, SLIDE_HEIGHT_EMU. simpl. lia.
  - cbv zeta. intros H. injection H as _ <-.
    intros sh [<- | [<- | []]]; split; intros Hp;
      try discriminate Hp; assumption.
Qed.

End WithFiles.

(** The theorem at the picture of a chart that was written. *)
Lemma chart_slide_geometry_witness :
  (is_picture (chart_picture (lit "charts/chart_3.png")) = false ->
   within_slide (box_of (chart_picture (lit "charts/chart_3.png"))))
  /\ (is_picture (chart_picture (lit "charts/chart_3.png")) = true ->
      (box_left (box_of (chart_picture (lit "charts/chart_3.png")))
       + box_width (box_of (chart_picture (lit "charts/chart_3.png")))
       = SLIDE_WIDTH_EMU + 1371600)%Z
      /\ (0 <= box_top (box_of (chart_picture (lit "charts/chart_3.png"))))%Z
      /\ (box_top (box_of (chart_picture (lit "charts/chart_3.png")))
          + box_height (box_of (chart_picture (lit "charts/chart_3.png")))
          <= SLIDE_HEIGHT_EMU)%Z).
Proof.
  apply (@chart_slide_geometry every_file readable default_presentation
           (mkPresentation 11
              [[chart_title_box (lit "Primary Data Insights");
                chart_picture (lit "charts/chart_3.png");
                chart_text_box [lit "Most significant patterns discovered in data"]]])
           (lit "Primary Data Insights") (lit "charts/chart_3.png")
           [lit "Most significant patterns discovered in data"]
           [chart_title_box (lit "Primary Data Insights");
            chart_picture (lit "charts/chart_3.png");
            chart_text_box [lit "Most significant patterns discovered in data"]]).
  - vm_compute. lia.
  - vm_compute. reflexivity.
  - right. left. reflexivity.
Defined.

End GeometryFacts.

(* ================================================================== *)
(** * Fitting a text to its frame *)
(* ================================================================== *)

Module FontFit.
Import PyStr.

(** [pptx.util.Pt] of a whole number of points: 12700 EMU to the point. *)
Definition Pt (points : Z) : Z := (points * 12700)%Z.

(** [text.count(c)] for a single character. *)
Definition count_char (c : codepoint) (text : str) : nat :=
  length (filter (cp_eqb c) text).

(** A paragraph of a text frame, with the two attributes the function
    sets: the font size and the space after it, in EMU. *)
Record paragraph : Type := mkParagraph {
  paragraph_text : str;
  paragraph_font_size : option Z;
  paragraph_space_after : option Z
}.

(** Lines 506-516: the font size in points. *)
Definition fitted_font_size (text : str) (max_font_size min_font_size : Z) : Z :=
  let text_length := Z.of_nat (length text) in
  let line_count := (Z.of_nat (count_char 10%N text) + 1)%Z in
  if (300 <? text_length)%Z || (6 <? line_count)%Z then min_font_size
  else if (200 <? text_length)%Z || (4 <? line_count)%Z then (min_font_size + 2)%Z
  else if (100 <? text_length)%Z || (3 <? line_count)%Z then (max_font_size - 2)%Z
  else max_font_size.

Section WithFrame.

(** [text_frame.text = text]: the texts of the paragraphs python-pptx makes
    of the text it is assigned. *)
Variable set_text : str -> list str.

(** Lines 501-523: the paragraphs of the frame as the function leaves them,
    and the length it returns. *)
Definition fit_text_to_textbox (text : str) (max_font_size min_font_size : Z)
    : list paragraph * Z :=
  let font_size := fitted_font_size text max_font_size min_font_size in
  (map (fun p => mkParagraph p (Some (Pt font_size)) (Some (Pt 6)))
       (set_text text),
   Pt font_size).

End WithFrame.

(** One paragraph per line, as python-pptx splits an assigned text. *)
Definition by_lines : str -> list str := split [10%N].

End FontFit.

Module FontFitFacts.
Import PyStr FontFit.

Section WithFrame.

Variable set_text : str -> list str.

(** With bounds at least 4 points apart, fitting is monotone: a text that
    is no shorter than another and has no fewer line breaks gets a font that
    is no larger; the size returned lies between the two bounds, and every
    paragraph of the frame is given exactly that size, with 6 points after
    it. *)
Theorem fit_text_to_textbox_monotone (shorter longer : str)
    (max_font_size min_font_size : Z) :
  (min_font_size + 4 <= max_font_size)%Z ->
  (length shorter <= length longer)%nat ->
  (count_char 10%N shorter <= count_char 10%N longer)%nat ->
  (snd (fit_text_to_textbox set_text longer max_font_size min_font_size)
   <= snd (fit_text_to_textbox set_text shorter max_font_size min_font_size))%Z
  /\ (Pt min_font_size
      <= snd (fit_text_to_textbox set_text longer max_font_size min_font_size)
      <= Pt max_font_size)%Z
  /\ (forall p,
        In p (fst (fit_text_to_textbox set_text longer max_font_size
                     min_font_size)) ->
        paragraph_font_size p
        = Some (snd (fit_text_to_textbox set_text longer max_font_size
                       min_font_size))
        /\ paragraph_space_after p = Some 76200%Z).
Proof.
  intros Hgap Hlen Hlines. split; [|split].
  - unfold fit_text_to_textbox, Pt, fitted_font_size. cbv zeta. cbn [snd].
    repeat match goal with
           | |- context [(?a <? ?b)%Z] => destruct (Z.ltb_spec a b)
           end; cbn [orb]; lia.
  - unfold fit_text_to_textbox, Pt, fitted_font_size. cbv zeta. cbn [snd].
    repeat match goal with
           | |- context [(?a <? ?b)%Z] => destruct (Z.ltb_spec a b)
           end; cbn [orb]; lia.
  - intros p Hp. unfold fit_text_to_textbox in *. cbv zeta in *.
    cbn [fst snd] in *. apply in_map_iff in Hp.
    destruct Hp as [t [<- _]]. split; reflexivity.
Qed.

End WithFrame.

(** The theorem at a text of 150 characters against one of 50, for the
    default bounds of 16 and 10 points. *)
Lemma fit_text_to_textbox_monotone_witness :
  (snd (fit_text_to_textbox by_lines (repeat 97%N 150) 16 10)
   <= snd (fit_text_to_textbox by_lines (repeat 97%N 50) 16 10))%Z
  /\ (Pt 10 <= snd (fit_text_to_textbox by_lines (repeat 97%N 150) 16 10)
      <= Pt 16)%Z
  /\ (forall p,
        In p (fst (fit_text_to_textbox by_lines (repeat 97%N 150) 16 10)) ->
        paragraph_font_size p
        = Some (snd (fit_text_to_textbox by_lines (repeat 97%N 150) 16 10))
        /\ paragraph_space_after p = Some 76200%Z).
Proof.
  apply (@fit_text_to_textbox_monotone by_lines (repeat 97%N 50)
           (repeat 97%N 150) 16 10).
  - lia.
  - vm_compute. lia.
  - vm_compute. lia.
Defined.

(** With bounds closer than 4 points the tiers cross: of two texts on one
    line, the one of 250 characters is given a larger font than the one of
    150. *)
Example fit_text_to_textbox_crossing :
  snd (fit_text_to_textbox by_lines (repeat 97%N 150) 12 10) = Pt 10
  /\ snd (fit_text_to_textbox by_lines (repeat 97%N 250) 12 10) = Pt 12.
Proof. split; vm_compute; reflexivity. Qed.

End FontFitFacts.

(* ================================================================== *)
(** * The coordinates the conversion gives *)
(* ================================================================== *)

Module ConversionFacts.
Import PyStr PyVal Layout Fixtures GeometryFacts.

Local Open Scope float_scope.

(** The whole percentages whose length comes out one EMU below the exact
    fraction of the slide: the double of [p / 100 * 10 * 914400] (or of
    [p / 100 * 7.5 * 914400]) lies just under the integer, and [int]
    truncates. *)
Definition width_one_short : list nat :=
  [9; 18; 36; 41; 47; 57; 59; 69; 72; 82; 83; 87; 94]%nat.

Definition height_one_short : list nat :=
  [3; 6; 9; 12; 18; 24; 29; 36; 41; 48; 57; 58; 71; 72; 82; 96; 97]%nat.

(** The length of [p] percent in EMU, one percent of the dimension being
    [per_percent] EMU: 91440 for the 10 inches of the width, 68580 for the
    7.5 inches of the height. *)
Definition emu_of_percent (per_percent : Z) (one_short : list nat) (p : nat)
    : Z :=
  (Z.of_nat p * per_percent
   - (if existsb (Nat.eqb p) one_short then 1 else 0))%Z.

Definition gives (expected : Z) (r : Py.result Z) : bool :=
  match r with
  | Py.Ok n => (n =? expected)%Z
  | Py.Raise _ => false
  end.

Definition coordinates_ok (p : nat) : bool :=
  gives (emu_of_percent 91440 width_one_short p)
    (percent_to_inches new_template (whole_percent p) (lit "width"))
  && gives (emu_of_percent 68580 height_one_short p)
       (percent_to_inches new_template (whole_percent p) (lit "height")).

Lemma coordinates_checked : forallb coordinates_ok (seq 0 101) = true.
Proof. vm_compute. reflexivity. Qed.

Lemma gives_eq (expected : Z) (r : Py.result Z) :
  gives expected r = true -> r = Py.Ok expected.
Proof.
  destruct r as [n|e]; cbn [gives]; [|discriminate].
  intros H. apply Z.eqb_eq in H. subst n. reflexivity.
Qed.

(** A template of 10 by 7.5 inches converts as the default one. *)
Lemma percent_to_inches_by_dimensions (t : PPTTemplate) (x : float)
    (dimension_type : str) :
  SLIDE_WIDTH (config t) = 10 -> SLIDE_HEIGHT (config t) = 7.5 ->
  percent_to_inches t x dimension_type
  = percent_to_inches new_template x dimension_type.
Proof.
  intros Hw Hh. unfold percent_to_inches. rewrite Hw, Hh. reflexivity.
Qed.

(** C9.  With the slide dimensions fixed at 10 by 7.5 inches, the
    conversion depends on the percentage and the dimension type only: two
    templates of these dimensions convert every percentage alike, and any
    dimension type other than ['width'] is read as the height.  For every
    whole percentage [p] from 0 to 100 the coordinate is pinned: the width
    gives [p * 91440] EMU and the height [p * 68580] EMU, which are
    [p / 100 * 10] and [p / 100 * 7.5] inches, except at the percentages
    listed in [width_one_short] and [height_one_short], where the result
    is one EMU less. *)
Theorem percent_to_inches_coordinates (t1 t2 : PPTTemplate) (x : float)
    (dimension_type : str) (p : nat) :
  SLIDE_WIDTH (config t1) = 10 -> SLIDE_HEIGHT (config t1) = 7.5 ->
  SLIDE_WIDTH (config t2) = 10 -> SLIDE_HEIGHT (config t2) = 7.5 ->
  (p <= 100)%nat ->
  percent_to_inches t1 x dimension_type = percent_to_inches t2 x dimension_type
  /\ (PyStr.eqb dimension_type (lit "width") = false ->
      percent_to_inches t1 x dimension_type
      = percent_to_inches t1 x (lit "height"))
  /\ percent_to_inches t1 (whole_percent p) (lit "width")
     = Py.Ok (emu_of_percent 91440 width_one_short p)
  /\ percent_to_inches t1 (whole_percent p) (lit "height")
     = Py.Ok (emu_of_percent 68580 height_one_short p).
Proof.
  intros Hw1 Hh1 Hw2 Hh2 Hp.
  assert (Hin : In p (seq 0 101)) by (apply in_seq; lia).
  pose proof (proj1 (forallb_forall _ _) coordinates_checked p Hin) as Hok.
  unfold coordinates_ok in Hok. apply andb_true_iff in Hok.
  destruct Hok as [Hwidth Hheight].
  apply gives_eq in Hwidth. apply gives_eq in Hheight.
  split; [|split; [|split]].
  - rewrite (percent_to_inches_by_dimensions t1 x dimension_type Hw1 Hh1).
    rewrite (percent_to_inches_by_dimensions t2 x dimension_type Hw2 Hh2).
    reflexivity.
  - intros Hother. unfold percent_to_inches. rewrite Hother. reflexivity.
  - rewrite (percent_to_inches_by_dimensions t1 _ (lit "width") Hw1 Hh1).
    exact Hwidth.
  - rewrite (percent_to_inches_by_dimensions t1 _ (lit "height") Hw1 Hh1).
    exact Hheight.
Qed.

(** The theorem at the default template and another one of the same
    dimensions, for 24 percent. *)
Lemma percent_to_inches_coordinates_witness :
  percent_to_inches new_template 24 (lit "height")
  = percent_to_inches wide_chart_template 24 (lit "height")
  /\ (PyStr.eqb (lit "height") (lit "width") = false ->
      percent_to_inches new_template 24 (lit "height")
      = percent_to_inches new_template 24 (lit "height"))
  /\ percent_to_inches new_template (whole_percent 24) (lit "width")
     = Py.Ok (emu_of_percent 91440 width_one_short 24)
  /\ percent_to_inches new_template (whole_percent 24) (lit "height")
     = Py.Ok (emu_of_percent 68580 height_one_short 24).
Proof.
  apply (@percent_to_inches_coordinates new_template wide_chart_template 24
           (lit "height") 24); try reflexivity.
  lia.
Defined.

(** 24 percent of the height, the top of the chart: 1.8 inches are 1645920
    EMU, and the conversion gives 1645919. *)
Lemma height_of_24_percent :
  percent_to_inches new_template 24 (lit "height") = Py.Ok 1645919%Z
  /\ (1645919 < 24 * 75 * 914400 / (100 * 10))%Z.
Proof. split; [vm_compute; reflexivity | vm_compute; reflexivity]. Qed.

End ConversionFacts.
